(** * Canvas synchronisation and placement pacing of the pixel bot

    A shallow embedding of [place.py] (class [PlaceClient]) and of the
    parts of [src/connect.py] that decide how a worker goes on
    ([login], [set_pixel] and the stitching of [get_board]).

    Conventions of the model.
    - Python exceptions are values of [PyExc]; a method of [PlaceClient]
      is a state transformer that returns the object as it is left
      together with a value or the exception raised.
    - Time ([time.time()], timestamps, waits) is a rational number.  The
      source computes on floats; rounding is not modelled.
    - numpy integer arrays of canvas coordinates are pairs of integers;
      the values stay far below the width of numpy's integers.  Where
      such an integer is serialised it is tagged as a numpy one.
    - An image array ([np.array] of a PIL image) is a shape with a
      lookup function, rows first: [item a i j] is row [i], column [j].
    - The collaborators that talk to the network or to the file system
      ([utils.load_template_data], [utils.get_json_data],
      [connect.get_board], the HTTP exchange of [connect.set_pixel] and
      of [connect.login], the clock and [stop_event]) are not computed:
      what they deliver is an input of the operation that uses it. *)

From stdpp Require Import gmap strings list sorting.
From Stdlib Require Import QArith.

Open Scope Z_scope.

(** ** Python exceptions and results *)

Inductive PyExc : Type :=
| KeyError
| IndexError
| TypeError
| AttributeError
| ValueError
| UnboundLocalError
| JSONDecodeError
| SystemExit (code : Z)
| CollaboratorError.   (* raised inside an external collaborator *)

Inductive Res (A : Type) : Type :=
| Val (a : A)
| Exc (e : PyExc).
Arguments Val {A} a.
Arguments Exc {A} e.

#[global] Instance res_ret : MRet Res := fun A a => Val a.
#[global] Instance res_bind : MBind Res := fun A B k r =>
  match r with
  | Val a => k a
  | Exc e => Exc e
  end.

(** ** Pixels, arrays and images *)

Record RGB : Type := mkRGB { red : Z; green : Z; blue : Z }.
Record RGBA : Type := mkRGBA { rgb_of : RGB; alpha : Z }.

Definition black : RGB := mkRGB 0 0 0.

(** [(a != b).any(axis=-1)]: some channel differs. *)
Definition rgb_neqb (a b : RGB) : bool :=
  negb (red a =? red b) || negb (green a =? green b) || negb (blue a =? blue b).

Record ndarray (A : Type) : Type :=
  mkArray { nrows : nat; ncols : nat; item : nat -> nat -> A }.
Arguments mkArray {A} nrows ncols item.
Arguments nrows {A} _.
Arguments ncols {A} _.
Arguments item {A} _ _ _.

Definition shape {A} (a : ndarray A) : nat * nat := (nrows a, ncols a).

Definition np_map {A B} (f : A -> B) (a : ndarray A) : ndarray B :=
  mkArray (nrows a) (ncols a) (fun i j => f (item a i j)).

(** numpy broadcasting of one axis: equal lengths, or one of them is 1. *)
Definition broadcast_dim (a b : nat) : option nat :=
  if (a =? b)%nat then Some a
  else if (a =? 1)%nat then Some b
  else if (b =? 1)%nat then Some a
  else None.

(** Index into an axis of length [n] of a broadcast operand. *)
Definition bidx (n i : nat) : nat := if (n =? 1)%nat then 0%nat else i.

(** A binary elementwise operation; [ValueError] when the shapes cannot
    be broadcast together. *)
Definition np_zip {A B C} (f : A -> B -> C) (x : ndarray A) (y : ndarray B)
  : Res (ndarray C) :=
  match broadcast_dim (nrows x) (nrows y), broadcast_dim (ncols x) (ncols y) with
  | Some h, Some w =>
      Val (mkArray h w (fun i j =>
             f (item x (bidx (nrows x) i) (bidx (ncols x) j))
               (item y (bidx (nrows y) i) (bidx (ncols y) j))))
  | _, _ => Exc ValueError
  end.

(** [np.argwhere]: the indices of the true cells, in row-major order. *)
Definition np_argwhere (m : ndarray bool) : list (nat * nat) :=
  List.filter (fun ij => item m (fst ij) (snd ij))
              (list_prod (seq 0 (nrows m)) (seq 0 (ncols m))).

(** [a[rows, cols]] for one index pair; [IndexError] out of range. *)
Definition np_take {A} (a : ndarray A) (ij : nat * nat) : Res A :=
  if ((fst ij <? nrows a) && (snd ij <? ncols a))%nat
  then Val (item a (fst ij) (snd ij))
  else Exc IndexError.

Fixpoint np_take_all {A} (a : ndarray A) (l : list (nat * nat)) : Res (list A) :=
  match l with
  | [] => Val []
  | ij :: l' =>
      x ← np_take a ij;
      xs ← np_take_all a l';
      Val (x :: xs)
  end.

(** A PIL image: [size = (width, height)] and a pixel at every [(x, y)]
    inside. *)
Record Image (A : Type) : Type :=
  mkImage { width : nat; height : nat; pixel : Z -> Z -> A }.
Arguments mkImage {A} width height pixel.
Arguments width {A} _.
Arguments height {A} _.
Arguments pixel {A} _ _ _.

(** [np.array(img)]: shape (height, width), row [i] is the line [y = i]. *)
Definition np_array {A} (img : Image A) : ndarray A :=
  mkArray (height img) (width img)
          (fun i j => pixel img (Z.of_nat j) (Z.of_nat i)).

(** [img.crop((left, upper, right, lower))] followed by [convert("RGB")]
    on an RGB image: the result has the size of the box; what lies
    outside the source is black. *)
Definition crop (img : Image RGB) (left upper right lower : Z) : Image RGB :=
  mkImage (Z.to_nat (right - left)) (Z.to_nat (lower - upper))
          (fun x y =>
             let sx := left + x in
             let sy := upper + y in
             if (0 <=? sx) && (sx <? Z.of_nat (width img))
                && (0 <=? sy) && (sy <? Z.of_nat (height img))
             then pixel img sx sy else black).

(** ** ColorMapper ([src/mappings.py], not among the sources) *)

Module ColorMapper.

Definition dist2 (a b : RGB) : Z :=
  (red a - red b) * (red a - red b)
  + (green a - green b) * (green a - green b)
  + (blue a - blue b) * (blue a - blue b).

Fixpoint nearest (best : RGB) (rest : list RGB) (p : RGB) : RGB :=
  match rest with
  | [] => best
  | c :: rest' =>
      if dist2 c p <? dist2 best p then nearest c rest' p
      else nearest best rest' p
  end.

(** Modelled from the spec: [ColorMapper.closest_color] of the missing
    [src/mappings.py] for one pixel, "the Palette entry of minimum
    Euclidean distance in RGB space; ties broken by lowest palette
    identifier".  The palette is the array the caller passes
    ([rgb_colors_array]); on an empty palette the pixel is returned as
    it is. *)
Definition closest_color_pixel (palette : list RGB) (p : RGB) : RGB :=
  match palette with
  | [] => p
  | c :: rest => nearest c rest p
  end.

(** Modelled from the spec: [ColorMapper.closest_color] on a grid,
    "whole-grid quantization as a single operation". *)
Definition closest_color (a : ndarray RGB) (palette : list RGB) : ndarray RGB :=
  np_map (closest_color_pixel palette) a.

Definition rgb_eqb (a b : RGB) : bool := negb (rgb_neqb a b).

Fixpoint index_of (palette : list RGB) (c : RGB) (n : Z) : Res Z :=
  match palette with
  | [] => Exc KeyError
  | p :: rest => if rgb_eqb p c then Val n else index_of rest c (n + 1)
  end.

(** Modelled from the spec: [COLOR_MAP[rgb_to_hex(c)]] of the missing
    [src/mappings.py], the "identifier lookup from an exact hex
    color", with identifiers "dense, zero-based": the position of the
    colour in the palette, [KeyError] for a colour outside it. *)
Definition color_id (palette : list RGB) (c : RGB) : Res Z :=
  index_of palette c 0.

End ColorMapper.

(** ** JSON values as Python sees them *)

#[warnings="-register-all"]
Inductive json : Type :=
| JNull
| JBool (b : bool)
| JNum (q : Q)
| JStr (s : string)
| JArr (l : list json)
| JObj (kv : list (string * json)).

Fixpoint dict_lookup (kv : list (string * json)) (k : string) : option json :=
  match kv with
  | [] => None
  | (k', v) :: rest => if String.eqb k' k then Some v else dict_lookup rest k
  end.

(** [v[k]] with a string key. *)
Definition getitem (v : json) (k : string) : Res json :=
  match v with
  | JObj kv => match dict_lookup kv k with
               | Some x => Val x
               | None => Exc KeyError
               end
  | _ => Exc TypeError
  end.

(** [v[n]] with an integer index [n >= 0]. *)
Definition getindex (v : json) (n : nat) : Res json :=
  match v with
  | JArr l => match nth_error l n with
              | Some x => Val x
              | None => Exc IndexError
              end
  | JStr s => match String.get n s with
              | Some c => Val (JStr (String c EmptyString))
              | None => Exc IndexError
              end
  | JObj _ => Exc KeyError
  | _ => Exc TypeError
  end.

(** [v.get(k)]: only a dict has the method. *)
Definition dict_get (v : json) (k : string) : Res json :=
  match v with
  | JObj kv => match dict_lookup kv k with
               | Some x => Val x
               | None => Val JNull
               end
  | _ => Exc AttributeError
  end.

Definition is_str (k : string) (v : json) : bool :=
  match v with
  | JStr s => String.eqb s k
  | _ => false
  end.

(** [k in v] for a string [k]: a key of a dict, an element of a list, a
    substring of a string. *)
Definition contains (k : string) (v : json) : Res bool :=
  match v with
  | JObj kv => Val (bool_decide (is_Some (dict_lookup kv k)))
  | JArr l => Val (existsb (is_str k) l)
  | JStr s => Val (bool_decide (is_Some (String.index 0 k s)))
  | _ => Exc TypeError
  end.

(** [v / 1000]: true division of a number ([bool] is a number too). *)
Definition div1000 (v : json) : Res Q :=
  match v with
  | JNum q => Val (q / 1000)%Q
  | JBool b => Val ((if b then 1 else 0) / 1000)%Q
  | _ => Exc TypeError
  end.

(** [t + v] for a float [t]. *)
Definition add_number (t : Q) (v : json) : Res Q :=
  match v with
  | JNum q => Val (t + q)%Q
  | JBool b => Val (t + (if b then 1 else 0))%Q
  | _ => Exc TypeError
  end.

(** ** The PlaceClient object *)

(** [self.canvas]: the two offsets the code reads from the canvas file. *)
Record CanvasConfig : Type :=
  mkCanvas { offset_template_api : Z * Z; offset_visual : Z * Z }.

Definition add2 (a b : Z * Z) : Z * Z := (fst a + fst b, snd a + snd b).

Record PlaceClient : Type := mkClient {
  canvas : CanvasConfig;
  unverified_rate_limit : Q;
  rgb_colors_array : list RGB;
  access_tokens : gmap string json;
  access_token_expires_at_timestamp : gmap string Q;
  stop_event : bool;
  board_outdated : bool;
  template_outdated : bool;
  coord : Z * Z;
  size : Z * Z;
  template : ndarray RGBA;
  board : option (ndarray RGB);
  wrong_pixels : list ((Z * Z) * RGB)
}.

Definition set_template_outdated (b : bool) (st : PlaceClient) : PlaceClient :=
  mkClient (canvas st) (unverified_rate_limit st) (rgb_colors_array st)
           (access_tokens st) (access_token_expires_at_timestamp st)
           (stop_event st) (board_outdated st) b
           (coord st) (size st) (template st) (board st) (wrong_pixels st).

Definition set_board_outdated (b : bool) (st : PlaceClient) : PlaceClient :=
  mkClient (canvas st) (unverified_rate_limit st) (rgb_colors_array st)
           (access_tokens st) (access_token_expires_at_timestamp st)
           (stop_event st) b (template_outdated st)
           (coord st) (size st) (template st) (board st) (wrong_pixels st).

Definition set_stop_event (b : bool) (st : PlaceClient) : PlaceClient :=
  mkClient (canvas st) (unverified_rate_limit st) (rgb_colors_array st)
           (access_tokens st) (access_token_expires_at_timestamp st)
           b (board_outdated st) (template_outdated st)
           (coord st) (size st) (template st) (board st) (wrong_pixels st).

(** The four assignments of lines 97-100. *)
Definition set_template (cv : CanvasConfig) (c sz : Z * Z) (t : ndarray RGBA)
    (st : PlaceClient) : PlaceClient :=
  mkClient cv (unverified_rate_limit st) (rgb_colors_array st)
           (access_tokens st) (access_token_expires_at_timestamp st)
           (stop_event st) (board_outdated st) (template_outdated st)
           c sz t (board st) (wrong_pixels st).

Definition set_board (b : option (ndarray RGB)) (st : PlaceClient) : PlaceClient :=
  mkClient (canvas st) (unverified_rate_limit st) (rgb_colors_array st)
           (access_tokens st) (access_token_expires_at_timestamp st)
           (stop_event st) (board_outdated st) (template_outdated st)
           (coord st) (size st) (template st) b (wrong_pixels st).

Definition set_wrong_pixels (q : list ((Z * Z) * RGB)) (st : PlaceClient) : PlaceClient :=
  mkClient (canvas st) (unverified_rate_limit st) (rgb_colors_array st)
           (access_tokens st) (access_token_expires_at_timestamp st)
           (stop_event st) (board_outdated st) (template_outdated st)
           (coord st) (size st) (template st) (board st) q.

Definition set_access_token (u : string) (tok : json) (st : PlaceClient) : PlaceClient :=
  mkClient (canvas st) (unverified_rate_limit st) (rgb_colors_array st)
           (<[u := tok]> (access_tokens st)) (access_token_expires_at_timestamp st)
           (stop_event st) (board_outdated st) (template_outdated st)
           (coord st) (size st) (template st) (board st) (wrong_pixels st).

Definition set_expires_at (u : string) (t : Q) (st : PlaceClient) : PlaceClient :=
  mkClient (canvas st) (unverified_rate_limit st) (rgb_colors_array st)
           (access_tokens st) (<[u := t]> (access_token_expires_at_timestamp st))
           (stop_event st) (board_outdated st) (template_outdated st)
           (coord st) (size st) (template st) (board st) (wrong_pixels st).

(** A method of the object: the object afterwards, and what the call
    returned or raised. *)
Definition Py (A : Type) : Type := PlaceClient -> PlaceClient * Res A.

#[global] Instance py_ret : MRet Py := fun A a st => (st, Val a).
#[global] Instance py_bind : MBind Py := fun A B k m st =>
  match m st with
  | (st', Val a) => k a st'
  | (st', Exc e) => (st', Exc e)
  end.

Definition raise {A} (e : PyExc) : Py A := fun st => (st, Exc e).
Definition lift {A} (r : Res A) : Py A := fun st => (st, r).
Definition gets {A} (f : PlaceClient -> A) : Py A := fun st => (st, Val (f st)).
Definition modify (f : PlaceClient -> PlaceClient) : Py unit := fun st => (f st, Val tt).

(** ** [PlaceClient.__init__] and [PlaceClient.update] *)

(** What the collaborators deliver during one call: the template file
    ([None] for an empty result), the canvas file, and the stitched
    canvas image for a given access token. *)
Record Collab : Type := mkCollab {
  load_template_data : option ((Z * Z) * Image RGBA);
  get_json_data : CanvasConfig;
  get_board : json -> Res (Image RGB)
}.

Definition image_size {A} (img : Image A) : Z * Z :=
  (Z.of_nat (width img), Z.of_nat (height img)).

(** Lines 13-82; [exit(1)] when there is no template. *)
Definition init (rate_limit : Q) (palette : list RGB) (env : Collab) : Res PlaceClient :=
  let cv := get_json_data env in
  match load_template_data env with
  | None => Exc (SystemExit 1)
  | Some (c, img) =>
      Val (mkClient cv rate_limit palette ∅ ∅ false false false
                    (add2 c (offset_template_api cv)) (image_size img)
                    (np_array img) None [])
  end.

(** Lines 90-101.  [false]: the method returned at line 95. *)
Definition update_template (env : Collab) : Py bool :=
  outdated ← gets template_outdated;
  if outdated : bool then
    modify (set_template_outdated false);;
    match load_template_data env with
    | None => mret false
    | Some (c, img) =>
        let cv := get_json_data env in
        modify (set_template cv (add2 c (offset_template_api cv))
                             (image_size img) (np_array img));;
        mret true
    end
  else mret true.

Definition lookup_token (username : string) : Py json :=
  fun st => (st, match access_tokens st !! username with
                 | Some tok => Val tok
                 | None => Exc KeyError
                 end).

Definition is_None {A} (o : option A) : bool :=
  match o with
  | None => true
  | Some _ => false
  end.

(** Lines 104-114. *)
Definition update_board (env : Collab) (username : string) : Py unit :=
  outdated ← gets board_outdated;
  b ← gets board;
  if (outdated || is_None b)%bool then
    modify (set_board_outdated false);;
    tok ← lookup_token username;
    img ← lift (get_board env tok);
    c ← gets coord;
    sz ← gets size;
    modify (set_board (Some (np_array
              (crop img (fst c) (snd c) (fst c + fst sz) (snd c + snd sz)))));;
    modify (set_wrong_pixels [])
  else mret tt.

Definition update (env : Collab) (username : string) : Py unit :=
  go_on ← update_template env;
  if go_on : bool then update_board env username else mret tt.

(** The recorded size is the size of the template held: [size] is
    (width, height), the array has height rows and width columns. *)
Definition size_matches (st : PlaceClient) : Prop :=
  size st = (Z.of_nat (ncols (template st)), Z.of_nat (nrows (template st))).

(** The board, when there is one, has the shape of the template. *)
Definition aligned (st : PlaceClient) : Prop :=
  match board st with
  | Some b => shape b = shape (template st)
  | None => True
  end.

(** ** [PlaceClient.compute_wrong_pixels] *)

(** [(self.board != target_rgb).any(axis=-1) & (target_a == 255)];
    comparing [None] with an array is true in every cell. *)
Definition wrong_mask (b : option (ndarray RGB)) (target_rgb : ndarray RGB)
    (target_a : ndarray Z) : Res (ndarray bool) :=
  differs ← match b with
            | Some b => np_zip rgb_neqb b target_rgb
            | None => Val (np_map (fun _ => true) target_rgb)
            end;
  np_zip andb differs (np_map (fun a => a =? 255) target_a).

Definition coord_of (ij : nat * nat) : Z * Z :=
  (Z.of_nat (fst ij), Z.of_nat (snd ij)).

Definition compute_wrong_pixels (username : string) : Py unit :=
  q ← gets wrong_pixels;
  if (0 <? length q)%nat then mret tt
  else
    t ← gets template;
    palette ← gets rgb_colors_array;
    b ← gets board;
    let target_a := np_map alpha t in
    let target_rgb := ColorMapper.closest_color (np_map rgb_of t) palette in
    mask ← lift (wrong_mask b target_rgb target_a);
    let coords := np_argwhere mask in
    colors ← lift (np_take_all target_rgb coords);
    modify (set_wrong_pixels (zip (map coord_of coords) colors)).

(** The spec's words for an entry of the DiscrepancyQueue, against a
    template and a canvas snapshot [b]: the position is inside the
    template, the template is fully opaque there, the quantized template
    colour differs from the snapshot's colour there, and the entry
    carries the quantized colour.  Positions are (row, column). *)
Definition discrepancy (palette : list RGB) (t : ndarray RGBA) (b : ndarray RGB)
    (pos : Z * Z) (c : RGB) : Prop :=
  exists i j : nat,
    pos = (Z.of_nat i, Z.of_nat j)
    /\ (i < nrows t)%nat /\ (j < ncols t)%nat
    /\ alpha (item t i j) = 255
    /\ ColorMapper.closest_color_pixel palette (rgb_of (item t i j)) <> item b i j
    /\ c = ColorMapper.closest_color_pixel palette (rgb_of (item t i j)).

(** ** [PlaceClient.get_wrong_pixel] *)

(** What the Coordinator loop of [start] and the interrupt handler do to
    the shared flags while a worker sleeps. *)
Inductive Event : Type :=
| BoardOutdatedSet
| TemplateOutdatedSet
| StopSet.

Definition apply_event (st : PlaceClient) (e : Event) : PlaceClient :=
  match e with
  | BoardOutdatedSet => set_board_outdated true st
  | TemplateOutdatedSet => set_template_outdated true st
  | StopSet => set_stop_event true st
  end.

Definition apply_events (es : list Event) (st : PlaceClient) : PlaceClient :=
  fold_left apply_event es st.

(** One round of the polling loop: what happened to the flags during
    [stop_event.wait(timeout=10)], and what the collaborators deliver to
    the [update] of this round. *)
Record Poll : Type := mkPoll { during_wait : list Event; collab : Collab }.

(** [self.<name>] for the attribute that holds the canvas file.  The
    object gets [canvas] in [__init__] (line 33) and in [update]
    (line 97); no assignment in the sources creates another attribute
    with such a value, and reading a name that was never assigned raises
    [AttributeError]. *)
Definition getattr_canvas (name : string) : Py CanvasConfig :=
  fun st => (st, if String.eqb name "canvas" then Val (canvas st)
                 else Exc AttributeError).

(** [self.wrong_pixels.pop()]: the last entry. *)
Definition pop_wrong_pixel : Py ((Z * Z) * RGB) :=
  q ← gets wrong_pixels;
  match last q with
  | None => raise IndexError
  | Some x => modify (set_wrong_pixels (removelast q));; mret x
  end.

Inductive Acquired : Type :=
| Found (relative : Z * Z) (new_rgb : RGB)   (* line 132 *)
| ReturnedNone                               (* the loop ended on stop_event *)
| StillPolling.                              (* nothing found so far *)

(** Lines 118-138, one round. *)
Definition get_wrong_pixel_round (p : Poll) (username : string) : Py Acquired :=
  modify (apply_events (during_wait p));;
  stopped ← gets stop_event;
  if stopped : bool then mret ReturnedNone
  else
    update (collab p) username;;
    compute_wrong_pixels username;;
    q ← gets wrong_pixels;
    if (0 <? length q)%nat then
      x ← pop_wrong_pixel;
      (* the argument of logger.info, line 130 *)
      cv ← getattr_canvas "convas";
      c ← gets coord;
      let shown := add2 (add2 (fst x) c) (offset_visual cv) in
      mret (Found (fst x) (snd x))
    else mret StillPolling.

(** The call returned a pixel. *)
Definition returned_pixel (r : Res Acquired) : bool :=
  match r with
  | Val (Found _ _) => true
  | _ => false
  end.

(** The loop over the rounds that are given; [StillPolling] when they
    are used up and nothing was returned. *)
Fixpoint get_wrong_pixel (polls : list Poll) (username : string) : Py Acquired :=
  match polls with
  | [] => mret StillPolling
  | p :: rest =>
      r ← get_wrong_pixel_round p username;
      match r with
      | StillPolling => get_wrong_pixel rest username
      | _ => mret r
      end
  end.

(** ** [PlaceClient.set_pixel_and_check_ratelimit] *)

(** The arguments [connect.set_pixel] is called with; they become the
    [coordinate], [colorIndex] and [canvasIndex] of the payload and the
    bearer token. *)
Record PixelRequest : Type := mkRequest {
  req_coord : Z * Z;
  req_color_index : Z;
  req_canvas_index : Z;
  req_token : json
}.

(** The HTTP response: what [response.json()] gives or raises. *)
Record Response : Type := mkResponse { response_json : Res json }.

Definition floordiv2 (c : Z * Z) (n : Z) : Z * Z := (fst c / n, snd c / n).
Definition mod2 (c : Z * Z) (n : Z) : Z * Z := (fst c mod n, snd c mod n).

(** Lines 176-206: the value the method returns for a response. *)
Definition check_ratelimit (response : Response) : Res Q :=
  j ← response_json response;
  d ← getitem j "data";
  match d with
  | JNull =>
      dict_get j "errors";;
      errors ← (e ← dict_get j "errors"; getindex e 0);
      has ← contains "extensions" errors;
      if negb has then
        dict_get errors "message";;
        Val 60%Q
      else
        ext ← getitem errors "extensions";
        ts ← getitem ext "nextAvailablePixelTs";
        div1000 ts
  | _ =>
      a ← getitem d "act";
      b ← getitem a "data";
      c ← getindex b 0;
      e ← getitem c "data";
      ts ← getitem e "nextAvailablePixelTimestamp";
      div1000 ts
  end.

(** An integer as [json.dumps] meets it: a Python [int], or a numpy
    integer scalar, which is what an element of a numpy integer array
    and arithmetic on such elements are.  The encoder serialises the
    first and raises TypeError on the second. *)
Inductive PyInteger : Type :=
| PyInt (z : Z)
| NumpyInt (z : Z).

Definition int_value (n : PyInteger) : Z :=
  match n with
  | PyInt z => z
  | NumpyInt z => z
  end.

Definition json_dumps_int (n : PyInteger) : Res json :=
  match n with
  | PyInt z => Val (JNum (inject_Z z))
  | NumpyInt _ => Exc TypeError
  end.

(** [connect.py], lines 33-56. *)
Definition set_pixel_query : string :=
  "mutation setPixel($input: ActInput!) {
                    act(input: $input) {
                        data {
                            ... on BasicMessage {
                                id
                                data {
                                    ... on GetUserCooldownResponseMessageData {
                                        nextAvailablePixelTimestamp
                                        __typename
                                    }
                                    ... on SetPixelResponseMessageData {
                                        timestamp
                                        __typename
                                    }
                                    __typename
                                }
                                __typename
                            }
                            __typename
                        }
                        __typename
                    }
                }
            ".

(** [connect.py], lines 20-58: the document that is serialised. *)
Definition set_pixel_payload (coord : PyInteger * PyInteger)
    (color_index canvas_index : PyInteger) : Res json :=
  x ← json_dumps_int (fst coord);
  y ← json_dumps_int (snd coord);
  c ← json_dumps_int color_index;
  i ← json_dumps_int canvas_index;
  Val (JObj [("operationName", JStr "setPixel");
             ("variables", JObj [("input", JObj [
                ("actionName", JStr "r/replace:set_pixel");
                ("PixelMessageData", JObj [
                   ("coordinate", JObj [("x", x); ("y", y)]);
                   ("colorIndex", c);
                   ("canvasIndex", i)])])]);
             ("query", JStr set_pixel_query)]).

(** Line 63: ["Bearer " + access_token]. *)
Definition bearer (access_token : json) : Res string :=
  match access_token with
  | JStr s => Val ("Bearer " ++ s)%string
  | _ => Exc TypeError
  end.

(** [connect.set_pixel], lines 16-75.  [http] is the POST of lines
    67-73, given the arguments that its body and its authorization
    header were built from; it is reached once both are built. *)
Definition set_pixel (http : PixelRequest -> Res Response)
    (coord : PyInteger * PyInteger) (color_index canvas_index : PyInteger)
    (access_token : json) : Res Response :=
  set_pixel_payload coord color_index canvas_index;;
  bearer access_token;;
  http (mkRequest (int_value (fst coord), int_value (snd coord))
                  (int_value color_index) (int_value canvas_index) access_token).

(** Lines 159-206.  The first component lists the calls of
    [connect.set_pixel] that were made.  [coord] is a numpy array (in
    [task], the sum of two of them), so [coord % 1000] and [subcanvas]
    are numpy integers; [color_index] is an entry of the colour table. *)
Definition set_pixel_and_check_ratelimit (net : PixelRequest -> Res Response)
    (color_index : Z) (coord : Z * Z) (username : string) (st : PlaceClient)
  : list PixelRequest * Res Q :=
  let subcoord := floordiv2 coord 1000 in
  let subcanvas := fst subcoord + 3 * snd subcoord in
  match access_tokens st !! username with
  | None => ([], Exc KeyError)
  | Some tok =>
      let request := mkRequest (mod2 coord 1000) color_index subcanvas tok in
      ([request],
       response ← set_pixel net
                    (NumpyInt (fst (mod2 coord 1000)), NumpyInt (snd (mod2 coord 1000)))
                    (PyInt color_index) (NumpyInt subcanvas) tok;
       check_ratelimit response)
  end.

(** ** [connect.login] *)

(** What the HTTP exchange of [login] delivers: the status code of [r]
    when the connection loop (lines 262-302) is left, [None] when the
    loop is left on [stop_event] before [r] was bound; and the session
    object [data["user"]["session"]] scraped from the page (lines
    312-322), or what the scraping raised. *)
Record LoginExchange : Type := mkLogin {
  login_status : option Z;
  session : Res json
}.

(** [tok[:5]] in the last log line. *)
Definition slice5 (tok : json) : Res unit :=
  match tok with
  | JStr _ | JArr _ => Val tt
  | _ => Exc TypeError
  end.

(** Lines 304-345. *)
Definition login (x : LoginExchange) (username password index : string)
    (current_time : Q) : Py unit :=
  match login_status x with
  | None => raise UnboundLocalError
  | Some status =>
      if negb (status =? 200) then mret tt      (* line 308 *)
      else
        response_data ← lift (session x);
        err ← lift (contains "error" response_data);
        if err : bool then raise (SystemExit 1)  (* line 329 *)
        else
          tok ← lift (getitem response_data "accessToken");
          modify (set_access_token index tok);;
          expires_in ← lift (getitem response_data "expiresIn");
          t ← lift (add_number current_time expires_in);
          modify (set_expires_at index t);;
          lift (slice5 tok)
  end.

(** ** [PlaceClient.task] *)

(** The condition of lines 219-224. *)
Definition needs_login (username : string) (current_time : Q) (st : PlaceClient) : bool :=
  match access_tokens st !! username,
        access_token_expires_at_timestamp st !! username with
  | Some _, Some e => negb (Qeq_bool e 0) && Qle_bool e current_time
  | _, _ => true
  end.

(** Lines 218-226. *)
Definition refresh_token (x : LoginExchange) (username password : string)
    (current_time : Q) : Py unit :=
  need ← gets (needs_login username current_time);
  if need : bool then login x username password username current_time
  else mret tt.

(** How one pass of the loop body ends. *)
Inductive Paced : Type :=
| NextCycle (time_to_wait : Q)   (* back to line 214 with this timeout *)
| Cancelled.                     (* line 243 *)

(** Lines 239-246. *)
Definition pace (next_placement_time current_time : Q) : Paced :=
  let time_to_wait := (next_placement_time - current_time)%Q in
  if negb (Qle_bool time_to_wait 10000) then Cancelled
  else NextCycle time_to_wait.

(** Lines 231-246 for a pixel that [get_wrong_pixel] returned. *)
Definition place_and_pace (net : PixelRequest -> Res Response) (username : string)
    (current_time : Q) (relative : Z * Z) (new_rgb : RGB) (st : PlaceClient)
  : list PixelRequest * Res Paced :=
  match ColorMapper.color_id (rgb_colors_array st) new_rgb with
  | Exc e => ([], Exc e)
  | Val color_index =>
      let r := set_pixel_and_check_ratelimit net color_index
                 (add2 (coord st) relative) username st in
      (fst r, next_placement_time ← snd r; Val (pace next_placement_time current_time))
  end.

(** How long [stop_event.wait(timeout)] blocks when the event stays
    clear: a timeout that is not positive does not block. *)
Definition blocking_time (timeout : Q) : Q :=
  if Qle_bool timeout 0 then 0%Q else timeout.

(** ** The worker threads of [start] *)

(** Where a worker thread stands. *)
Inductive Thread : Type :=
| AtWait (time_to_wait : Q)                     (* line 214 *)
| AtAcquire (current_time : Q)                  (* line 229, polling *)
| AtPlace (current_time : Q) (relative : Z * Z) (new_rgb : RGB)   (* line 231 *)
| Stopped                                       (* [task] returned: stop_event *)
| Banned                                        (* [task] returned: line 243 *)
| Raised (e : PyExc).                           (* the thread died on [e] *)

(** What the world delivers to one step of one thread. *)
Record Inputs : Type := mkInputs {
  in_events : list Event;
  in_now : Q;
  in_login : LoginExchange;
  in_collab : Collab;
  in_net : PixelRequest -> Res Response
}.

Definition thread_step (inp : Inputs) (username password : string) (t : Thread)
    (st : PlaceClient) : PlaceClient * Thread :=
  match t with
  | AtWait time_to_wait =>
      let st1 := apply_events (in_events inp) st in
      if stop_event st1 then (st1, Stopped)
      else
        match refresh_token (in_login inp) username password (in_now inp) st1 with
        | (st2, Val _) => (st2, AtAcquire (in_now inp))
        | (st2, Exc e) => (st2, Raised e)
        end
  | AtAcquire current_time =>
      match get_wrong_pixel_round (mkPoll (in_events inp) (in_collab inp)) username st with
      | (st1, Val (Found relative new_rgb)) => (st1, AtPlace current_time relative new_rgb)
      | (st1, Val ReturnedNone) => (st1, Raised TypeError)   (* unpacking None *)
      | (st1, Val StillPolling) => (st1, AtAcquire current_time)
      | (st1, Exc e) => (st1, Raised e)
      end
  | AtPlace current_time relative new_rgb =>
      match snd (place_and_pace (in_net inp) username current_time relative new_rgb st) with
      | Val (NextCycle time_to_wait) => (st, AtWait time_to_wait)
      | Val Cancelled => (st, Banned)
      | Exc e => (st, Raised e)
      end
  | _ => (st, t)
  end.

(** [task] as far as the given inputs reach, one step per input. *)
Fixpoint run_thread (inps : list Inputs) (username password : string) (t : Thread)
    (st : PlaceClient) : PlaceClient * Thread :=
  match inps with
  | [] => (st, t)
  | inp :: rest =>
      let r := thread_step inp username password t st in
      run_thread rest username password (snd r) (fst r)
  end.

Definition task (inps : list Inputs) (username password : string) (st : PlaceClient)
  : PlaceClient * Thread :=
  run_thread inps username password (AtWait (unverified_rate_limit st)) st.

Definition at_place (t : Thread) : bool :=
  match t with
  | AtPlace _ _ _ => true
  | _ => false
  end.

(** The shared object and one thread per worker of the configuration,
    each with the password [task] was started with. *)
Record System : Type := mkSystem {
  client : PlaceClient;
  threads : gmap string (string * Thread)
}.

(** Lines 251-263: a thread per worker, each at the top of its loop. *)
Definition start (st : PlaceClient) (workers : gmap string string) : System :=
  mkSystem (set_stop_event false st)
           ((fun pw => (pw, AtWait (unverified_rate_limit st))) <$> workers).

(** The thread of [username] takes one step. *)
Definition system_step (inp : Inputs) (username : string) (sys : System) : System :=
  match threads sys !! username with
  | Some (password, t) =>
      let r := thread_step inp username password t (client sys) in
      mkSystem (fst r) (<[username := (password, snd r)]> (threads sys))
  | None => sys
  end.

(** ** A small scene, used to run the definitions *)

Module Scene.

Definition red_ : RGB := mkRGB 255 0 0.
Definition green_ : RGB := mkRGB 0 255 0.
Definition blue_ : RGB := mkRGB 0 0 255.
Definition white_ : RGB := mkRGB 255 255 255.

Definition palette : list RGB := [black; red_; green_; blue_; white_].

(** An image from its lines. *)
Definition image_of_rows {A} (d : A) (rows : list (list A)) : Image A :=
  mkImage (length (hd [] rows)) (length rows)
          (fun x y => nth (Z.to_nat x) (nth (Z.to_nat y) rows []) d).

Definition opaque (c : RGB) : RGBA := mkRGBA c 255.

(** A 2x2 opaque template with slightly off colours, and a wider one. *)
Definition template_2x2 : Image RGBA :=
  image_of_rows (opaque black)
    [[opaque (mkRGB 250 3 3); opaque (mkRGB 2 251 4)];
     [opaque (mkRGB 1 1 240); opaque (mkRGB 255 255 250)]].

Definition template_3x1 : Image RGBA :=
  image_of_rows (opaque black) [[opaque red_; opaque red_; mkRGBA white_ 0]].

(** The remote canvas: 3000 x 2000, black everywhere. *)
Definition black_canvas : Image RGB := mkImage 3000 2000 (fun _ _ => black).

Definition canvas_file : CanvasConfig := mkCanvas (1500, 1000) (-1500, -1000).

Definition collab_2x2 : Collab :=
  mkCollab (Some ((-490, 30), template_2x2)) canvas_file (fun _ => Val black_canvas).

Definition collab_3x1 : Collab :=
  mkCollab (Some ((-480, 40), template_3x1)) canvas_file (fun _ => Val black_canvas).

Definition collab_no_template : Collab :=
  mkCollab None canvas_file (fun _ => Val black_canvas).

(** The object after [__init__]. *)
Definition fresh : PlaceClient :=
  match init 0 palette collab_2x2 with
  | Val st => st
  | Exc _ => mkClient canvas_file 0 [] ∅ ∅ false false false (0, 0) (0, 0)
                      (np_array template_2x2) None []
  end.

(** Responses of the placement endpoint. *)
Definition placed (ts : Q) : Response :=
  mkResponse (Val (JObj [("data", JObj [("act", JObj [("data", JArr [
    JObj [("data", JObj [("nextAvailablePixelTimestamp", JNum ts)])]])])])])).

Definition plain_error (msg : string) : Response :=
  mkResponse (Val (JObj [("data", JNull);
                         ("errors", JArr [JObj [("message", JStr msg)]])])).

Definition rate_limited (ts : Q) : Response :=
  mkResponse (Val (JObj [("data", JNull);
                         ("errors", JArr [JObj [
                            ("message", JStr "Ratelimited");
                            ("extensions", JObj [("nextAvailablePixelTs", JNum ts)])]])])).

(** A login that works, and one that is refused. *)
Definition login_ok : LoginExchange :=
  mkLogin (Some 200)
          (Val (JObj [("accessToken", JStr "token-1"); ("expiresIn", JNum 3600)])).

Definition login_refused : LoginExchange :=
  mkLogin (Some 403) (Exc CollaboratorError).

Definition login_error : LoginExchange :=
  mkLogin (Some 200) (Val (JObj [("error", JStr "invalid_grant")])).

Definition login_no_fields : LoginExchange :=
  mkLogin (Some 200) (Val (JObj [])).

Definition no_net : PixelRequest -> Res Response := fun _ => Exc CollaboratorError.

(** Two workers.  alice logs in at time 1000; in her first round the
    board flag is up, so the board is fetched and the queue computed. *)
Definition workers : gmap string string :=
  <["alice" := "pw-a"]> (<["bob" := "pw-b"]> ∅).

Definition sys0 : System := start fresh workers.

Definition sys1 : System :=
  system_step (mkInputs [] 1000 login_ok collab_2x2 no_net) "alice" sys0.

Definition sys2 : System :=
  system_step (mkInputs [BoardOutdatedSet] 1010 login_ok collab_2x2 no_net) "alice" sys1.

(** The object with a board and a queue, and then with the template
    flag raised once more while the board flag is down. *)
Definition loaded : PlaceClient := client sys2.

Definition template_flagged : PlaceClient :=
  apply_events [TemplateOutdatedSet] loaded.

(** The object right after a board refresh, and its board. *)
Definition boarded : PlaceClient :=
  fst (update collab_2x2 "alice" (apply_events [BoardOutdatedSet] (client sys1))).

Definition boarded_board : ndarray RGB :=
  default (mkArray 0 0 (fun _ _ => black)) (board boarded).

(** The object with both flags up and no board yet. *)
Definition both_flagged : PlaceClient :=
  apply_events [BoardOutdatedSet; TemplateOutdatedSet] fresh.

(** bob's [update] on the object with only the template flag up, while
    the template file holds the 3x1 image at another anchor. *)
Definition retemplated : PlaceClient * Res unit :=
  update collab_3x1 "bob" template_flagged.

(** bob's first step, for a given answer to his login. *)
Definition bob_logs_in (x : LoginExchange) : System :=
  system_step (mkInputs [] 1000 x collab_2x2 no_net) "bob" sys0.

(** alice's first round of polling, as one call of [get_wrong_pixel]. *)
Definition first_poll : PlaceClient * Res Acquired :=
  get_wrong_pixel [mkPoll [BoardOutdatedSet] collab_2x2] "alice" (client sys1).

End Scene.

(** ** The sub-canvas addressing read backwards *)

(** "canvas structure: 0 | 1 | 2 / 3 | 4 | 5" (lines 160-162): the
    absolute coordinate a request stands for when the sub-canvases are
    laid out three in a row, numbered line by line. *)
Definition region_decode (r : PixelRequest) : Z * Z :=
  (1000 * (req_canvas_index r mod 3) + fst (req_coord r),
   1000 * (req_canvas_index r / 3) + snd (req_coord r)).

(** ** [PlaceClient.get_visual_position] *)

Definition get_visual_position (c : Z * Z) (st : PlaceClient) : Z * Z :=
  add2 c (offset_visual (canvas st)).

(** ** Reading order of positions *)

(** (row, column) positions row by row, each row left to right. *)
Definition row_major_lt (a b : Z * Z) : Prop :=
  fst a < fst b \/ (fst a = fst b /\ snd a < snd b).

Definition nat_row_major_lt (a b : nat * nat) : Prop :=
  (fst a < fst b)%nat \/ (fst a = fst b /\ (snd a < snd b)%nat).

(** The cell [(x, y)] of a canvas image, black outside of it. *)
Definition canvas_pixel (img : Image RGB) (x y : Z) : RGB :=
  if (0 <=? x) && (x <? Z.of_nat (width img))
     && (0 <=? y) && (y <? Z.of_nat (height img))
  then pixel img x y else black.

(** ** [connect.get_board]: the tiles and their stitching (lines 144-259) *)

(** An entry of [canvas_details["canvasConfigurations"]], and the
    details of the configuration message. *)
Record CanvasConfiguration : Type :=
  mkConfiguration { cfg_index : Z; cfg_dx : Z; cfg_dy : Z }.

Record CanvasDetails : Type := mkDetails {
  canvasConfigurations : list CanvasConfiguration;
  canvasWidth : Z;
  canvasHeight : Z
}.

(** A message read in the loop of lines 200-232: a full frame for a
    subscription id, with the status code of the download of its image
    and the picture in it, or a message the loop passes over (its type
    is not "data", or its data is not a FullFrameMessageData).  These
    are the messages the loop gets through; one whose parsing, fields
    or download raise ends [get_board] with that exception before
    anything is stitched, and is not among them. *)
Inductive Frame : Type :=
| FullFrame (img_id : Z) (status_code : Z) (img : Image RGB)
| PassedOver.

(** Lines 144-149: the subscription ids 2, 3, ... *)
Definition canvas_sockets (canvas_count : nat) : list Z :=
  map (fun i => 2 + Z.of_nat i) (seq 0 canvas_count).

(** [l.remove(x)]: without the first occurrence. *)
Fixpoint list_remove (x : Z) (l : list Z) : list Z :=
  match l with
  | [] => []
  | y :: rest => if x =? y then rest else y :: list_remove x rest
  end.

Definition list_mem (x : Z) (l : list Z) : bool := existsb (Z.eqb x) l.

(** Lines 200-232 over the messages that are given: the subscriptions
    still open, and the images collected, in order of arrival. *)
Fixpoint collect_images (frames : list Frame) (sockets : list Z)
    (imgs : list (Z * Image RGB)) : list Z * list (Z * Image RGB) :=
  match frames with
  | [] => (sockets, imgs)
  | f :: rest =>
      match sockets with
      | [] => ([], imgs)
      | _ =>
          match f with
          | FullFrame img_id status_code img =>
              if list_mem img_id sockets then
                if negb (status_code =? 404)
                then collect_images rest (list_remove img_id sockets)
                                    (imgs ++ [(img_id, img)])
                else collect_images rest (list_remove img_id sockets) imgs
              else collect_images rest sockets imgs
          | PassedOver => collect_images rest sockets imgs
          end
      end
  end.

(** [max(...)] of a list; [ValueError] on an empty one. *)
Definition py_max (l : list Z) : Res Z :=
  match l with
  | [] => Exc ValueError
  | x :: rest => Val (fold_left Z.max rest x)
  end.

(** [sorted(imgs, key=lambda x: x[0])]: a stable sort by id. *)
Fixpoint insert_by_id (x : Z * Image RGB) (l : list (Z * Image RGB))
  : list (Z * Image RGB) :=
  match l with
  | [] => [x]
  | y :: rest => if fst x <=? fst y then x :: y :: rest
                 else y :: insert_by_id x rest
  end.

Definition sorted_by_id (imgs : list (Z * Image RGB)) : list (Z * Image RGB) :=
  fold_right insert_by_id [] imgs.

(** [Image.new("RGB", (w, h))]: black; PIL refuses a negative size. *)
Definition new_image (w h : Z) : Res (Image RGB) :=
  if (w <? 0) || (h <? 0) then Exc ValueError
  else Val (mkImage (Z.to_nat w) (Z.to_nat h) (fun _ _ => black)).

(** [base.paste(img, (dx, dy))]: the box of [img] at the offset shows
    [img], the rest of [base] stays. *)
Definition paste (base img : Image RGB) (dx dy : Z) : Image RGB :=
  mkImage (width base) (height base)
          (fun x y =>
             if (dx <=? x) && (x <? dx + Z.of_nat (width img))
                && (dy <=? y) && (y <? dy + Z.of_nat (height img))
             then pixel img (x - dx) (y - dy)
             else pixel base x y).

(** Lines 253-257: the images in order, the one at position [idx] at
    the offsets of configuration [idx]. *)
Fixpoint paste_all (configs : list CanvasConfiguration) (new_img : Image RGB)
    (idx : nat) (imgs : list (Z * Image RGB)) : Res (Image RGB) :=
  match imgs with
  | [] => Val new_img
  | img :: rest =>
      match nth_error configs idx with
      | None => Exc IndexError
      | Some c => paste_all configs (paste new_img (snd img) (cfg_dx c) (cfg_dy c))
                            (S idx) rest
      end
  end.

(** Lines 239-259. *)
Definition stitch (details : CanvasDetails) (imgs : list (Z * Image RGB))
  : Res (Image RGB) :=
  max_dx ← py_max (map cfg_dx (canvasConfigurations details));
  max_dy ← py_max (map cfg_dy (canvasConfigurations details));
  new_img ← new_image (max_dx + canvasWidth details) (max_dy + canvasHeight details);
  paste_all (canvasConfigurations details) new_img 0 (sorted_by_id imgs).

(** Lines 144-259: [None] while subscriptions are open and the messages
    are used up. *)
Definition get_board_stitched (details : CanvasDetails) (frames : list Frame)
  : option (Res (Image RGB)) :=
  let r := collect_images frames
             (canvas_sockets (length (canvasConfigurations details))) [] in
  match fst r with
  | [] => Some (stitch details (snd r))
  | _ => None
  end.

(** The first full frame for an id among the messages. *)
Fixpoint first_frame (frames : list Frame) (id : Z) : option (Z * Image RGB) :=
  match frames with
  | [] => None
  | FullFrame img_id status_code img :: rest =>
      if img_id =? id then Some (status_code, img) else first_frame rest id
  | PassedOver :: rest => first_frame rest id
  end.

(** The tiles pasted one after the other, each at the offsets of its
    configuration. *)
Fixpoint paste_tiles (base : Image RGB) (tiles : list (Image RGB))
    (configs : list CanvasConfiguration) : Image RGB :=
  match tiles, configs with
  | t :: tiles', c :: configs' =>
      paste_tiles (paste base t (cfg_dx c) (cfg_dy c)) tiles' configs'
  | _, _ => base
  end.

(** Images in strictly increasing order of their ids. *)
Definition id_lt (a b : Z * Image RGB) : Prop := fst a < fst b.

(** ** A canvas of two tiles, used to run the stitching *)

Module Tiles.

Definition tile_a : Image RGB := mkImage 1000 1000 (fun _ _ => Scene.red_).
Definition tile_b : Image RGB := mkImage 1000 1000 (fun _ _ => Scene.blue_).

Definition details : CanvasDetails :=
  mkDetails [mkConfiguration 0 0 0; mkConfiguration 1 1000 0] 1000 1000.

(** The second tile arrives first; a frame for an id that was never
    subscribed and a message of another kind come in between. *)
Definition frames_all : list Frame :=
  [PassedOver; FullFrame 3 200 tile_b; FullFrame 7 200 tile_a;
   FullFrame 2 200 tile_a; FullFrame 3 200 tile_a].

(** The download of the first tile is answered with 404. *)
Definition frames_missing : list Frame :=
  [FullFrame 2 404 tile_a; FullFrame 3 200 tile_b].

Definition blank : Image RGB := mkImage 2000 1000 (fun _ _ => black).

End Tiles.

(** ** A template that the canvas already shows *)

Module Quiet.

Definition template_1x2 : Image RGBA :=
  Scene.image_of_rows (Scene.opaque black)
    [[Scene.opaque (mkRGB 1 2 3); mkRGBA Scene.white_ 0]].

Definition collab : Collab :=
  mkCollab (Some ((0, 0), template_1x2)) Scene.canvas_file
           (fun _ => Val Scene.black_canvas).

Definition fresh : PlaceClient :=
  match init 0 Scene.palette collab with
  | Val st => st
  | Exc _ => Scene.fresh
  end.

(** After alice's login and her first [update]. *)
Definition settled : PlaceClient :=
  fst (update collab "alice"
         (fst (login Scene.login_ok "alice" "pw-a" "alice" 1000 fresh))).

Definition settled_board : ndarray RGB :=
  default (mkArray 0 0 (fun _ _ => black)) (board settled).

End Quiet.

(** ** The main loop of [start] (lines 266-280) *)

(** One pass of the inner loop per second; each pass observes whether
    any worker thread is alive.  [i] passes of the current
    [for _ in range(100)] are done.  The result lists the flags raised,
    in order, and tells whether the loop has ended. *)
Fixpoint coordinator (any_alive : list bool) (i : nat) : list Event * bool :=
  match any_alive with
  | [] => ([], false)
  | alive :: rest =>
      if alive : bool then
        if (S i =? 100)%nat then
          let r := coordinator rest 0 in
          (BoardOutdatedSet :: TemplateOutdatedSet :: fst r, snd r)
        else
          let r := coordinator rest (S i) in
          (BoardOutdatedSet :: fst r, snd r)
      else ([BoardOutdatedSet; TemplateOutdatedSet], true)
  end.

Definition is_board_event (e : Event) : bool :=
  match e with
  | BoardOutdatedSet => true
  | _ => false
  end.

Definition is_template_event (e : Event) : bool :=
  match e with
  | TemplateOutdatedSet => true
  | _ => false
  end.

(** The template and its recorded geometry are the same in two states. *)
Definition same_template (st st' : PlaceClient) : Prop :=
  template st' = template st /\ size st' = size st.

(** ** Runs of the whole system *)

(** Steps of worker threads, one after the other: each with the worker
    that moves and what the world delivers to it. *)
Definition system_run (steps : list (Inputs * string)) (sys : System) : System :=
  fold_left (fun s step => system_step (fst step) (snd step) s) steps sys.

(** ** A login that is refused while the canvas shows the template *)

Module Refused.

(** What a step gets: the template that the canvas already shows, and
    an endpoint for placements that is not reached. *)
Definition inputs (events : list Event) (now : Q) (x : LoginExchange) : Inputs :=
  mkInputs events now x Quiet.collab Scene.no_net.

(** alice logs in at time 1000 and polls once, which fetches the board;
    bob has not started yet. *)
Definition alice_polling : System :=
  system_run [(inputs [] 1000 Scene.login_ok, "alice");
              (inputs [] 1010 Scene.login_ok, "alice")]
             (start Quiet.fresh Scene.workers).

(** bob's first pass through the top of his loop, at time 1020: his
    login is answered with status 403. *)
Definition bob_refused : System :=
  system_step (inputs [] 1020 Scene.login_refused) "bob" alice_polling.

(** The main loop raises the board flag, alice's next poll refreshes
    the board and lowers the flag, and then bob polls. *)
Definition poll_cycle (sys : System) : System :=
  system_run [(inputs [BoardOutdatedSet] 1030 Scene.login_refused, "alice");
              (inputs [] 1031 Scene.login_refused, "bob")] sys.

End Refused.
(** * Properties *)

(** ** Arrays *)

Lemma rgb_neqb_true (a b : RGB) : rgb_neqb a b = true <-> a <> b.
Proof.
  destruct a as [r1 g1 b1], b as [r2 g2 b2]; unfold rgb_neqb; simpl.
  rewrite !orb_true_iff, !negb_true_iff, !Z.eqb_neq.
  split.
  - intros H E; inversion E; subst; lia.
  - intros H.
    destruct (Z.eq_dec r1 r2) as [->|]; [|tauto].
    destruct (Z.eq_dec g1 g2) as [->|]; [|tauto].
    destruct (Z.eq_dec b1 b2) as [->|]; [congruence|tauto].
Qed.

Lemma broadcast_dim_same (n : nat) : broadcast_dim n n = Some n.
Proof. unfold broadcast_dim. now rewrite Nat.eqb_refl. Qed.

Lemma bidx_lt (n i : nat) : (i < n)%nat -> bidx n i = i.
Proof.
  unfold bidx. destruct (Nat.eqb_spec n 1); [lia | reflexivity].
Qed.

Lemma np_argwhere_spec (m : ndarray bool) (i j : nat) :
  In (i, j) (np_argwhere m)
  <-> (i < nrows m)%nat /\ (j < ncols m)%nat /\ item m i j = true.
Proof.
  unfold np_argwhere.
  rewrite filter_In, in_prod_iff, !in_seq. simpl. intuition lia.
Qed.

Lemma np_take_all_in_range {A} (a : ndarray A) (l : list (nat * nat)) :
  (forall ij, In ij l -> (fst ij < nrows a)%nat /\ (snd ij < ncols a)%nat) ->
  np_take_all a l = Val (map (fun ij => item a (fst ij) (snd ij)) l).
Proof.
  induction l as [|ij l IH]; intros Hin; [reflexivity|].
  simpl. unfold np_take.
  destruct (Hin ij (or_introl eq_refl)) as [Hi Hj].
  apply Nat.ltb_lt in Hi. apply Nat.ltb_lt in Hj.
  rewrite Hi, Hj. simpl.
  rewrite IH by (intros; apply Hin; now right).
  reflexivity.
Qed.

Lemma zip_map_pair {A B C} (f : A -> B) (g : A -> C) (l : list A) :
  zip (map f l) (map g l) = map (fun x => (f x, g x)) l.
Proof. induction l as [|x l IH]; simpl; [reflexivity | now rewrite IH]. Qed.

(** The mask of [compute_wrong_pixels] when the board has the shape of
    the template. *)
Lemma wrong_mask_same_shape (b target_rgb : ndarray RGB) (target_a : ndarray Z) :
  shape b = shape target_rgb ->
  shape target_a = shape target_rgb ->
  exists m,
    wrong_mask (Some b) target_rgb target_a = Val m
    /\ shape m = shape target_rgb
    /\ forall i j, (i < nrows m)%nat -> (j < ncols m)%nat ->
         item m i j
         = rgb_neqb (item b i j) (item target_rgb i j) && (item target_a i j =? 255).
Proof.
  unfold shape. intros Hb Ha. inversion Hb as [[Hbr Hbc]]. inversion Ha as [[Har Hac]].
  unfold wrong_mask, np_zip.
  rewrite Hbr, Hbc, !broadcast_dim_same. simpl.
  rewrite Har, Hac, !broadcast_dim_same. simpl.
  eexists. split; [reflexivity|]. split; [reflexivity|].
  simpl. intros i j Hi Hj.
  rewrite !(bidx_lt _ i) by assumption.
  rewrite !(bidx_lt _ j) by assumption.
  reflexivity.
Qed.

Example scene_loaded :
  wrong_pixels Scene.loaded
  = [((0, 0), Scene.red_); ((0, 1), Scene.green_); ((1, 0), Scene.blue_)]
  /\ (shape <$> board Scene.loaded) = Some (2%nat, 2%nat)
  /\ board_outdated Scene.loaded = false
  /\ threads Scene.sys2 !! "alice" = Some ("pw-a", Raised AttributeError).
Proof. vm_compute. auto. Qed.

(** ** The discrepancy queue *)

(** C2.  When the queue is computed from a template and a canvas
    snapshot of the same shape, an entry (position, colour) is in the
    queue if and only if the template is fully opaque (alpha 255) at the
    position, the palette-quantized template colour there differs from
    the snapshot's colour there, and the colour of the entry is that
    quantized colour.  So no entry sits on a non-opaque template pixel,
    and entries carry the quantized colour. *)
Theorem compute_wrong_pixels_discrepancies (username : string) (st : PlaceClient)
    (b : ndarray RGB) :
  wrong_pixels st = [] ->
  board st = Some b ->
  shape b = shape (template st) ->
  exists q,
    compute_wrong_pixels username st = (set_wrong_pixels q st, Val tt)
    /\ forall pos c,
         In (pos, c) q <-> discrepancy (rgb_colors_array st) (template st) b pos c.
Proof.
  intros Hq Hb Hshape.
  set (t := template st) in *.
  set (target_rgb := ColorMapper.closest_color (np_map rgb_of t) (rgb_colors_array st)).
  destruct (wrong_mask_same_shape b target_rgb (np_map alpha t)) as (m & Hm & Hms & Hitem).
  { exact Hshape. }
  { reflexivity. }
  inversion Hms as [[Hmr Hmc]].
  assert (Htake : np_take_all target_rgb (np_argwhere m)
                  = Val (map (fun ij => item target_rgb (fst ij) (snd ij)) (np_argwhere m))).
  { apply np_take_all_in_range. intros [i j] Hin.
    apply np_argwhere_spec in Hin. simpl. rewrite <- Hmr, <- Hmc. tauto. }
  eexists. split.
  - unfold compute_wrong_pixels, mbind, py_bind, gets, lift, modify. simpl.
    rewrite Hq. cbn beta iota. simpl. rewrite Hb. fold t. fold target_rgb.
    rewrite Hm, Htake. rewrite zip_map_pair. reflexivity.
  - intros pos c. rewrite in_map_iff. unfold discrepancy. split.
    + intros ([i j] & Heq & Hin). apply np_argwhere_spec in Hin.
      destruct Hin as (Hi & Hj & Htrue).
      rewrite Hitem in Htrue by assumption.
      apply andb_true_iff in Htrue. destruct Htrue as [Hne Ha].
      apply rgb_neqb_true in Hne. apply Z.eqb_eq in Ha.
      inversion Heq; subst pos c. simpl in *.
      exists i, j. rewrite Hmr in Hi. rewrite Hmc in Hj.
      repeat split; auto.
    + intros (i & j & -> & Hi & Hj & Ha & Hne & ->).
      exists (i, j). split; [reflexivity|].
      apply np_argwhere_spec.
      rewrite Hmr, Hmc. split; [exact Hi|]. split; [exact Hj|].
      rewrite Hitem by (rewrite ?Hmr, ?Hmc; assumption).
      apply andb_true_iff. split.
      * apply rgb_neqb_true. simpl. auto.
      * apply Z.eqb_eq. exact Ha.
Qed.

Lemma compute_wrong_pixels_discrepancies_witness :
  exists q,
    compute_wrong_pixels "alice" Scene.boarded = (set_wrong_pixels q Scene.boarded, Val tt)
    /\ forall pos c,
         In (pos, c) q
         <-> discrepancy (rgb_colors_array Scene.boarded) (template Scene.boarded)
                         Scene.boarded_board pos c.
Proof.
  apply (compute_wrong_pixels_discrepancies "alice" Scene.boarded Scene.boarded_board);
    reflexivity.
Defined.

(** C8.  Recomputation is lazy and idempotent: on an object whose queue
    is not empty, [compute_wrong_pixels] returns at once and leaves the
    whole object, the queue included, as it is; a second call changes
    nothing either. *)
Theorem compute_wrong_pixels_lazy (username : string) (st : PlaceClient) :
  wrong_pixels st <> [] ->
  compute_wrong_pixels username st = (st, Val tt)
  /\ compute_wrong_pixels username (fst (compute_wrong_pixels username st)) = (st, Val tt).
Proof.
  intros Hq.
  assert (H1 : compute_wrong_pixels username st = (st, Val tt)).
  { unfold compute_wrong_pixels, mbind, py_bind, gets. simpl.
    destruct (wrong_pixels st) as [|x q]; [congruence | reflexivity]. }
  split; [exact H1|]. rewrite H1. simpl. exact H1.
Qed.

Lemma compute_wrong_pixels_lazy_witness :
  compute_wrong_pixels "bob" Scene.loaded = (Scene.loaded, Val tt)
  /\ compute_wrong_pixels "bob" (fst (compute_wrong_pixels "bob" Scene.loaded))
     = (Scene.loaded, Val tt).
Proof.
  apply (compute_wrong_pixels_lazy "bob" Scene.loaded).
  vm_compute. discriminate.
Defined.

(** ** Refreshes *)

(** The board branch of [update], when it runs and the fetch succeeds:
    the new board has the recorded size, and the queue is emptied. *)
Lemma update_board_refresh (env : Collab) (username : string) (st : PlaceClient)
    (tok : json) (img : Image RGB) :
  (board_outdated st || is_None (board st))%bool = true ->
  access_tokens st !! username = Some tok ->
  get_board env tok = Val img ->
  exists b,
    update_board env username st
    = (set_wrong_pixels [] (set_board (Some b) (set_board_outdated false st)), Val tt)
    /\ shape b = (Z.to_nat (snd (size st)), Z.to_nat (fst (size st))).
Proof.
  intros Hgate Htok Himg.
  unfold update_board, mbind, py_bind, gets, modify, lift, lookup_token. simpl.
  rewrite Hgate. simpl. rewrite Htok, Himg. simpl.
  eexists. split; [reflexivity|].
  unfold shape. simpl. f_equal; f_equal; lia.
Qed.

Lemma init_size_matches (rate_limit : Q) (palette : list RGB) (env : Collab)
    (st : PlaceClient) :
  init rate_limit palette env = Val st -> size_matches st.
Proof.
  unfold init. destruct (load_template_data env) as [[c img]|]; [|discriminate].
  intros H. inversion H. reflexivity.
Qed.

Lemma update_size_matches (env : Collab) (username : string) (st : PlaceClient) :
  size_matches st -> size_matches (fst (update env username st)).
Proof.
  intros Hs.
  unfold update, update_template, update_board, mbind, py_bind, gets, modify,
    lift, lookup_token. simpl.
  destruct (template_outdated st); simpl.
  - destruct (load_template_data env) as [[c img]|]; simpl; [|exact Hs].
    destruct (board_outdated st || is_None (board st))%bool; simpl; [|reflexivity].
    destruct (access_tokens st !! username); simpl; [|reflexivity].
    destruct (get_board env _); reflexivity.
  - destruct (board_outdated st || is_None (board st))%bool; simpl; [|exact Hs].
    destruct (access_tokens st !! username); simpl; [|exact Hs].
    destruct (get_board env _); exact Hs.
Qed.

(** A call of [update] that gets to the board branch and returns leaves
    a board of the template's shape and an empty queue, whether or not
    the template was replaced in the same call. *)
Lemma update_with_board_refresh_aligns (env : Collab) (username : string)
    (st : PlaceClient) :
  size_matches st ->
  (board_outdated st || is_None (board st))%bool = true ->
  (template_outdated st = true -> load_template_data env <> None) ->
  snd (update env username st) = Val tt ->
  aligned (fst (update env username st))
  /\ wrong_pixels (fst (update env username st)) = [].
Proof.
  intros Hs Hgate Hload.
  unfold update, update_template, update_board, mbind, py_bind, gets, modify,
    lift, lookup_token, aligned, shape. simpl.
  unfold size_matches in Hs.
  destruct (template_outdated st); simpl.
  - destruct (load_template_data env) as [[c img]|]; simpl; [|now destruct Hload].
    rewrite Hgate. simpl.
    destruct (access_tokens st !! username); simpl; [|discriminate].
    destruct (get_board env _); simpl; [|discriminate].
    intros _. split; [|reflexivity]. f_equal; lia.
  - rewrite Hgate. simpl.
    destruct (access_tokens st !! username); simpl; [|discriminate].
    destruct (get_board env _); simpl; [|discriminate].
    intros _. split; [|reflexivity]. rewrite Hs. simpl. f_equal; lia.
Qed.

(** The template branch alone: the template flag is up, the board flag
    is down and a board is held.  The template, its anchor and its size
    are replaced; the board and the queue stay. *)
Lemma update_template_only (env : Collab) (username : string) (st : PlaceClient)
    (b : ndarray RGB) (c : Z * Z) (img : Image RGBA) :
  template_outdated st = true ->
  board_outdated st = false ->
  board st = Some b ->
  load_template_data env = Some (c, img) ->
  update env username st
  = (set_template (get_json_data env)
                  (add2 c (offset_template_api (get_json_data env)))
                  (image_size img) (np_array img)
                  (set_template_outdated false st), Val tt).
Proof.
  intros Ht Hbo Hb Hload.
  unfold update, update_template, update_board, mbind, py_bind, gets, modify. simpl.
  rewrite Ht, Hload. simpl. rewrite Hbo, Hb. reflexivity.
Qed.

(** C10.  With the template flag up and a template reload that delivers
    nothing, [update] lowers the template flag and returns: the board
    flag and the board are as before, whatever they were, so a board
    refresh that was due waits for a later call. *)
Theorem update_returns_when_reload_fails (env : Collab) (username : string)
    (st : PlaceClient) :
  template_outdated st = true ->
  load_template_data env = None ->
  update env username st = (set_template_outdated false st, Val tt)
  /\ board_outdated (fst (update env username st)) = board_outdated st
  /\ board (fst (update env username st)) = board st
  /\ wrong_pixels (fst (update env username st)) = wrong_pixels st.
Proof.
  intros Ht Hload.
  assert (H : update env username st = (set_template_outdated false st, Val tt)).
  { unfold update, update_template, mbind, py_bind, gets, modify. simpl.
    rewrite Ht, Hload. reflexivity. }
  rewrite H. repeat split.
Qed.

Lemma update_returns_when_reload_fails_witness :
  (board_outdated Scene.both_flagged = true /\ board Scene.both_flagged = None)
  /\ update Scene.collab_no_template "alice" Scene.both_flagged
     = (set_template_outdated false Scene.both_flagged, Val tt)
  /\ board_outdated (fst (update Scene.collab_no_template "alice" Scene.both_flagged))
     = board_outdated Scene.both_flagged
  /\ board (fst (update Scene.collab_no_template "alice" Scene.both_flagged))
     = board Scene.both_flagged
  /\ wrong_pixels (fst (update Scene.collab_no_template "alice" Scene.both_flagged))
     = wrong_pixels Scene.both_flagged.
Proof.
  split; [split; reflexivity|].
  apply (update_returns_when_reload_fails Scene.collab_no_template "alice"
           Scene.both_flagged);
    reflexivity.
Defined.

(** C3.  A template refresh that is not followed by a board refresh
    keeps the queue.  The object holds a board and three queue entries
    computed for the 2x2 template; the template flag is up, the board
    flag is down.  [update] replaces the template by the 3x1 one and
    returns with the three old entries still queued. *)
Theorem template_refresh_keeps_queue :
  template_outdated Scene.template_flagged = true
  /\ board_outdated Scene.template_flagged = false
  /\ snd Scene.retemplated = Val tt
  /\ shape (template Scene.template_flagged) = (2%nat, 2%nat)
  /\ shape (template (fst Scene.retemplated)) = (1%nat, 3%nat)
  /\ wrong_pixels (fst Scene.retemplated)
     = [((0, 0), Scene.red_); ((0, 1), Scene.green_); ((1, 0), Scene.blue_)]
  /\ wrong_pixels (fst Scene.retemplated) = wrong_pixels Scene.template_flagged.
Proof. vm_compute. repeat split. Qed.

(** C6.  After the same template refresh the board still has the shape
    of the old template: the snapshot is 2x2, the template 1x3, and the
    anchor has moved while the snapshot was cut at the old one. *)
Theorem template_refresh_misaligns :
  snd Scene.retemplated = Val tt
  /\ (shape <$> board Scene.template_flagged)
     = Some (shape (template Scene.template_flagged))
  /\ (shape <$> board (fst Scene.retemplated)) = Some (2%nat, 2%nat)
  /\ shape (template (fst Scene.retemplated)) = (1%nat, 3%nat)
  /\ size (fst Scene.retemplated) = (3, 1)
  /\ coord Scene.template_flagged = (1010, 1030)
  /\ coord (fst Scene.retemplated) = (1020, 1040).
Proof. vm_compute. repeat split. Qed.

(** ** Taking a pixel from the queue *)

(** A round of [get_wrong_pixel] never gets to line 132: once an entry
    is popped, the argument of the log call reads [self.convas]. *)
Lemma get_wrong_pixel_round_not_found (p : Poll) (username : string) (st : PlaceClient) :
  returned_pixel (snd (get_wrong_pixel_round p username st)) = false.
Proof.
  unfold get_wrong_pixel_round.
  cbv beta iota delta [mbind py_bind gets modify mret py_ret].
  destruct (stop_event (apply_events (during_wait p) st)); [reflexivity|].
  destruct (update (collab p) username (apply_events (during_wait p) st))
    as [st1 [[]|e]]; [|reflexivity].
  destruct (compute_wrong_pixels username st1) as [st2 [[]|e]]; [|reflexivity].
  destruct (0 <? length (wrong_pixels st2))%nat; [|reflexivity].
  unfold pop_wrong_pixel.
  cbv beta iota delta [mbind py_bind gets modify mret py_ret raise].
  destruct (last (wrong_pixels st2)); reflexivity.
Qed.

Lemma get_wrong_pixel_not_found (polls : list Poll) (username : string) (st : PlaceClient) :
  returned_pixel (snd (get_wrong_pixel polls username st)) = false.
Proof.
  revert st. induction polls as [|p rest IH]; intros st; [reflexivity|].
  simpl. unfold mbind, py_bind.
  pose proof (get_wrong_pixel_round_not_found p username st) as Hround.
  destruct (get_wrong_pixel_round p username st) as [st1 [r|e]]; [|reflexivity].
  destruct r; simpl in *; [discriminate | reflexivity | apply IH].
Qed.

(** With a queue that is not empty after [update] and
    [compute_wrong_pixels], the round pops the last entry and then
    raises [AttributeError]. *)
Lemma get_wrong_pixel_round_raises (p : Poll) (username : string)
    (st st1 st2 : PlaceClient) :
  stop_event (apply_events (during_wait p) st) = false ->
  update (collab p) username (apply_events (during_wait p) st) = (st1, Val tt) ->
  compute_wrong_pixels username st1 = (st2, Val tt) ->
  wrong_pixels st2 <> [] ->
  get_wrong_pixel_round p username st
  = (set_wrong_pixels (removelast (wrong_pixels st2)) st2, Exc AttributeError).
Proof.
  intros Hstop Hup Hcomp Hq.
  unfold get_wrong_pixel_round.
  cbv beta iota delta [mbind py_bind gets modify mret py_ret].
  rewrite Hstop, Hup, Hcomp.
  destruct (wrong_pixels st2) as [|x q] eqn:E; [congruence|].
  change (0 <? length (x :: q))%nat with true. cbv iota.
  unfold pop_wrong_pixel.
  cbv beta iota delta [mbind py_bind gets modify mret py_ret raise].
  rewrite E.
  destruct (last (x :: q)) eqn:El.
  - reflexivity.
  - apply last_None in El. discriminate.
Qed.

(** C4.  [get_wrong_pixel] never returns a pixel, and with a queue that
    is not empty after recomputation it raises.  In the scene the board
    is fetched, the queue is computed with four entries, the last one is
    popped, and the call ends in [AttributeError] with three entries
    left. *)
Theorem get_wrong_pixel_raises_after_pop :
  (forall polls username st,
      returned_pixel (snd (get_wrong_pixel polls username st)) = false)
  /\ wrong_pixels (fst (compute_wrong_pixels "alice" Scene.boarded))
     = [((0, 0), Scene.red_); ((0, 1), Scene.green_);
        ((1, 0), Scene.blue_); ((1, 1), Scene.white_)]
  /\ snd Scene.first_poll = Exc AttributeError
  /\ wrong_pixels (fst Scene.first_poll)
     = [((0, 0), Scene.red_); ((0, 1), Scene.green_); ((1, 0), Scene.blue_)].
Proof.
  split.
  - apply get_wrong_pixel_not_found.
  - vm_compute. repeat split.
Qed.

(** So a worker never stands at line 231: whatever the inputs, [task]
    does not reach the placement. *)
Lemma thread_step_not_at_place (inp : Inputs) (username password : string)
    (t : Thread) (st : PlaceClient) :
  at_place t = false ->
  at_place (snd (thread_step inp username password t st)) = false.
Proof.
  intros Ht. destruct t; try discriminate; try reflexivity.
  - simpl. destruct (stop_event _); [reflexivity|].
    destruct (refresh_token _ _ _ _ _) as [st2 [u|e]]; reflexivity.
  - unfold thread_step.
    pose proof (get_wrong_pixel_round_not_found
                  (mkPoll (in_events inp) (in_collab inp)) username st) as Hround.
    destruct (get_wrong_pixel_round _ username st) as [st1 [r|e]]; [|reflexivity].
    destruct r; simpl in *; [discriminate | reflexivity | reflexivity].
Qed.

Lemma task_never_places (inps : list Inputs) (username password : string)
    (st : PlaceClient) :
  at_place (snd (task inps username password st)) = false.
Proof.
  unfold task.
  assert (H : forall t st, at_place t = false ->
                at_place (snd (run_thread inps username password t st)) = false).
  { induction inps as [|inp rest IH]; intros t st0 Ht; [exact Ht|].
    simpl. apply IH. now apply thread_step_not_at_place. }
  now apply H.
Qed.

(** ** Authentication *)

(** A login that is answered with a status other than 200 returns
    without touching the object. *)
Lemma login_refused_returns (status : Z) (s : Res json) (username password index : string)
    (current_time : Q) (st : PlaceClient) :
  status <> 200 ->
  login (mkLogin (Some status) s) username password index current_time st = (st, Val tt).
Proof.
  intros Hs. unfold login. simpl.
  destruct (Z.eqb_spec status 200); [contradiction | reflexivity].
Qed.

(** So the loop body goes on to the polling after a refused login. *)
Lemma thread_step_refused_login (es : list Event) (now : Q) (status : Z) (s : Res json)
    (c : Collab) (net : PixelRequest -> Res Response) (username password : string)
    (time_to_wait : Q) (st : PlaceClient) :
  stop_event (apply_events es st) = false ->
  status <> 200 ->
  thread_step (mkInputs es now (mkLogin (Some status) s) c net) username password
              (AtWait time_to_wait) st
  = (apply_events es st, AtAcquire now).
Proof.
  intros Hstop Hs. simpl. rewrite Hstop.
  unfold refresh_token, mbind, py_bind, gets.
  destruct (needs_login username now (apply_events es st)).
  - now rewrite login_refused_returns.
  - reflexivity.
Qed.

(** The other failures of a login do end the thread, and only it: an
    error entry in the session data (exit), or session data without the
    token (KeyError). *)
Example login_failures_that_end_the_thread :
  (threads (Scene.bob_logs_in Scene.login_error) !! "bob"
   = Some ("pw-b", Raised (SystemExit 1))
   /\ threads (Scene.bob_logs_in Scene.login_error) !! "alice"
      = threads Scene.sys0 !! "alice")
  /\ (threads (Scene.bob_logs_in Scene.login_no_fields) !! "bob"
      = Some ("pw-b", Raised KeyError)
      /\ threads (Scene.bob_logs_in Scene.login_no_fields) !! "alice"
         = threads Scene.sys0 !! "alice").
Proof. vm_compute. repeat split. Qed.

(** After bob's refused login, a refresh of the board by alice followed
    by a poll of bob leaves the whole system as it was. *)
Lemma poll_cycle_after_refusal :
  Refused.poll_cycle Refused.bob_refused = Refused.bob_refused.
Proof. vm_compute. reflexivity. Qed.

Lemma poll_cycles_after_refusal (n : nat) :
  Nat.iter n Refused.poll_cycle Refused.bob_refused = Refused.bob_refused.
Proof.
  induction n as [|n IH]; [reflexivity|].
  rewrite Nat.iter_succ, IH. exact poll_cycle_after_refusal.
Qed.

(** C5.  A refused login does not end the worker's loop.  The object
    holds a board that shows the template, fetched by alice.  bob has no
    token and his login is answered with status 403: [login] returns,
    bob still has no token, and his thread goes on to the polling of
    [get_wrong_pixel].  There it stays: after any number of rounds in
    which alice's poll refreshes the board and bob's poll follows, bob's
    thread is still polling, still without a token, and alice's thread
    is as it was. *)
Theorem refused_login_worker_keeps_polling (n : nat) :
  threads Refused.alice_polling !! "bob" = Some ("pw-b", AtWait 0)
  /\ access_tokens (client Refused.alice_polling) !! "bob" = None
  /\ threads Refused.bob_refused !! "bob" = Some ("pw-b", AtAcquire 1020)
  /\ threads (Nat.iter n Refused.poll_cycle Refused.bob_refused) !! "bob"
     = Some ("pw-b", AtAcquire 1020)
  /\ access_tokens (client (Nat.iter n Refused.poll_cycle Refused.bob_refused)) !! "bob"
     = None
  /\ threads (Nat.iter n Refused.poll_cycle Refused.bob_refused) !! "alice"
     = threads Refused.alice_polling !! "alice".
Proof.
  rewrite poll_cycles_after_refusal. vm_compute. repeat split.
Qed.

(** ** The placement call *)

(** C7.  For every absolute coordinate (x, y), [connect.set_pixel] is
    called once, with the coordinate reduced modulo 1000 in each axis,
    the colour identifier that was passed in, and the region index
    x // 1000 + 3 * (y // 1000).  From [task] the coordinate is the
    template anchor plus the popped position and the colour identifier
    is the one of the popped colour. *)
Theorem set_pixel_receives_region_coordinates
    (net : PixelRequest -> Res Response) (username : string) (st : PlaceClient)
    (tok : json) :
  access_tokens st !! username = Some tok ->
  (forall color_index x y,
      fst (set_pixel_and_check_ratelimit net color_index (x, y) username st)
      = [mkRequest (x mod 1000, y mod 1000) color_index
                   (x / 1000 + 3 * (y / 1000)) tok])
  /\ (forall current_time relative new_rgb color_index,
         ColorMapper.color_id (rgb_colors_array st) new_rgb = Val color_index ->
         fst (place_and_pace net username current_time relative new_rgb st)
         = [mkRequest ((fst (coord st) + fst relative) mod 1000,
                       (snd (coord st) + snd relative) mod 1000)
                      color_index
                      ((fst (coord st) + fst relative) / 1000
                       + 3 * ((snd (coord st) + snd relative) / 1000)) tok]).
Proof.
  intros Htok. split.
  - intros color_index x y.
    unfold set_pixel_and_check_ratelimit. rewrite Htok. reflexivity.
  - intros current_time relative new_rgb color_index Hid.
    unfold place_and_pace. rewrite Hid.
    unfold set_pixel_and_check_ratelimit. rewrite Htok. reflexivity.
Qed.

Lemma set_pixel_receives_region_coordinates_witness :
  (forall color_index x y,
      fst (set_pixel_and_check_ratelimit Scene.no_net color_index (x, y) "alice" Scene.loaded)
      = [mkRequest (x mod 1000, y mod 1000) color_index
                   (x / 1000 + 3 * (y / 1000)) (JStr "token-1")])
  /\ (forall current_time relative new_rgb color_index,
         ColorMapper.color_id (rgb_colors_array Scene.loaded) new_rgb = Val color_index ->
         fst (place_and_pace Scene.no_net "alice" current_time relative new_rgb Scene.loaded)
         = [mkRequest ((fst (coord Scene.loaded) + fst relative) mod 1000,
                       (snd (coord Scene.loaded) + snd relative) mod 1000)
                      color_index
                      ((fst (coord Scene.loaded) + fst relative) / 1000
                       + 3 * ((snd (coord Scene.loaded) + snd relative) / 1000))
                      (JStr "token-1")]).
Proof.
  apply (set_pixel_receives_region_coordinates Scene.no_net "alice" Scene.loaded
           (JStr "token-1")).
  reflexivity.
Defined.

Example set_pixel_request_1999_1000 :
  fst (set_pixel_and_check_ratelimit Scene.no_net 4 (1999, 1000) "alice" Scene.loaded)
  = [mkRequest (999, 0) 4 4 (JStr "token-1")].
Proof. reflexivity. Qed.

(** ** Cooldown *)

Lemma check_ratelimit_placed (ts : Q) :
  check_ratelimit (Scene.placed ts) = Val (ts / 1000)%Q.
Proof. reflexivity. Qed.

Lemma check_ratelimit_plain_error (msg : string) :
  check_ratelimit (Scene.plain_error msg) = Val 60%Q.
Proof. reflexivity. Qed.

Lemma check_ratelimit_rate_limited (ts : Q) :
  check_ratelimit (Scene.rate_limited ts) = Val (ts / 1000)%Q.
Proof. reflexivity. Qed.

Lemma pace_cancelled (next_placement_time current_time : Q) :
  (10000 < next_placement_time - current_time)%Q ->
  pace next_placement_time current_time = Cancelled.
Proof.
  intros Hlt. unfold pace.
  destruct (Qle_bool (next_placement_time - current_time) 10000) eqn:E; [|reflexivity].
  apply Qle_bool_iff in E. exfalso. exact (Qlt_not_le _ _ Hlt E).
Qed.

Lemma pace_next_cycle (next_placement_time current_time : Q) :
  (next_placement_time - current_time <= 10000)%Q ->
  pace next_placement_time current_time
  = NextCycle (next_placement_time - current_time).
Proof.
  intros Hle. unfold pace.
  apply Qle_bool_iff in Hle. rewrite Hle. reflexivity.
Qed.

(** The wait of line 214 is the timeout clamped at zero. *)
Lemma blocking_time_clamped (t : Q) :
  ((t <= 0)%Q -> blocking_time t = 0%Q) /\ ((0 < t)%Q -> blocking_time t = t).
Proof.
  unfold blocking_time. split; intros H.
  - apply Qle_bool_iff in H. now rewrite H.
  - destruct (Qle_bool t 0) eqn:E; [|reflexivity].
    apply Qle_bool_iff in E. exfalso. exact (Qlt_not_le _ _ H E).
Qed.

(** [connect.set_pixel] does not get past the serialising of its
    payload when the coordinate holds a numpy integer. *)
Lemma set_pixel_numpy_coordinate_raises (http : PixelRequest -> Res Response)
    (x : Z) (y color_index canvas_index : PyInteger) (access_token : json) :
  set_pixel http (NumpyInt x, y) color_index canvas_index access_token = Exc TypeError.
Proof. reflexivity. Qed.

(** With Python integers and a string as token the POST is made. *)
Example set_pixel_python_integers_posts (http : PixelRequest -> Res Response) :
  set_pixel http (PyInt 11, PyInt 31) (PyInt 4) (PyInt 4) (JStr "token-1")
  = http (mkRequest (11, 31) 4 4 (JStr "token-1")).
Proof. reflexivity. Qed.



(** * Further properties of the code *)

(** ** Sub-canvas addressing *)

(** X1.  For a coordinate in the three columns of sub-canvases
    (0 <= x < 3000, any y) the request can be read backwards: the
    sub-canvas index and the reduced coordinate give the absolute
    coordinate again. *)
Theorem region_addressing_round_trip (net : PixelRequest -> Res Response)
    (color_index x y : Z) (username : string) (st : PlaceClient) (tok : json) :
  access_tokens st !! username = Some tok ->
  0 <= x < 3000 ->
  map region_decode
      (fst (set_pixel_and_check_ratelimit net color_index (x, y) username st))
  = [(x, y)].
Proof.
  intros Htok Hx.
  unfold set_pixel_and_check_ratelimit. rewrite Htok.
  unfold region_decode, floordiv2, mod2. simpl.
  assert (H0 : 0 <= x / 1000 < 3).
  { split; [apply Z.div_pos; lia | apply Z.div_lt_upper_bound; lia]. }
  assert (Hm : (x / 1000 + 3 * (y / 1000)) mod 3 = x / 1000).
  { replace (x / 1000 + 3 * (y / 1000)) with (x / 1000 + (y / 1000) * 3) by lia.
    rewrite Z.mod_add by lia. apply Z.mod_small. lia. }
  assert (Hd : (x / 1000 + 3 * (y / 1000)) / 3 = y / 1000).
  { replace (x / 1000 + 3 * (y / 1000)) with (x / 1000 + (y / 1000) * 3) by lia.
    rewrite Z.div_add by lia.
    rewrite (Z.div_small (x / 1000) 3) by lia. lia. }
  rewrite Hm, Hd.
  pose proof (Z.div_mod x 1000). pose proof (Z.div_mod y 1000).
  do 2 f_equal; lia.
Qed.

Lemma region_addressing_round_trip_witness :
  map region_decode
      (fst (set_pixel_and_check_ratelimit Scene.no_net 4 (2999, -1) "alice" Scene.loaded))
  = [(2999, -1)].
Proof.
  apply (region_addressing_round_trip Scene.no_net 4 2999 (-1) "alice" Scene.loaded
           (JStr "token-1")); [reflexivity | lia].
Defined.

(** X2.  Beyond the third column the addressing folds over: the
    coordinate (x + 3000, y) gives the same request as (x, y + 1000),
    for every x and y. *)
Theorem region_addressing_folds (net : PixelRequest -> Res Response)
    (color_index x y : Z) (username : string) (st : PlaceClient) (tok : json) :
  access_tokens st !! username = Some tok ->
  fst (set_pixel_and_check_ratelimit net color_index (x + 3000, y) username st)
  = fst (set_pixel_and_check_ratelimit net color_index (x, y + 1000) username st)
  /\ fst (set_pixel_and_check_ratelimit net color_index (x, y + 1000) username st)
     = [mkRequest (x mod 1000, y mod 1000) color_index
                  (x / 1000 + 3 * (y / 1000) + 3) tok].
Proof.
  intros Htok.
  unfold set_pixel_and_check_ratelimit. rewrite Htok.
  unfold floordiv2, mod2. simpl.
  replace (x + 3000) with (x + 3 * 1000) by lia.
  replace (y + 1000) with (y + 1 * 1000) by lia.
  rewrite !Z.div_add, !Z.mod_add by lia.
  split; do 2 f_equal; lia.
Qed.

Lemma region_addressing_folds_witness :
  fst (set_pixel_and_check_ratelimit Scene.no_net 4 (10 + 3000, 20) "alice" Scene.loaded)
  = fst (set_pixel_and_check_ratelimit Scene.no_net 4 (10, 20 + 1000) "alice" Scene.loaded)
  /\ fst (set_pixel_and_check_ratelimit Scene.no_net 4 (10, 20 + 1000) "alice" Scene.loaded)
     = [mkRequest (10 mod 1000, 20 mod 1000) 4 (10 / 1000 + 3 * (20 / 1000) + 3)
                  (JStr "token-1")].
Proof.
  apply (region_addressing_folds Scene.no_net 4 10 20 "alice" Scene.loaded
           (JStr "token-1")).
  reflexivity.
Defined.

(** ** The placement attempt *)

(** X4.  A placement attempt of a worker that holds a token ends inside
    [connect.set_pixel]: the coordinate and the region index it is
    given are numpy integers, serialising the payload raises TypeError,
    and [set_pixel_and_check_ratelimit] raises it in turn, for every
    colour identifier and every coordinate and whatever the endpoint
    would have answered.  So do lines 231-246 for a pixel whose colour
    the table knows: no wait is computed. *)
Theorem placement_attempt_raises_type_error (net : PixelRequest -> Res Response)
    (username : string) (st : PlaceClient) (tok : json) :
  access_tokens st !! username = Some tok ->
  (forall color_index coord,
      snd (set_pixel_and_check_ratelimit net color_index coord username st)
      = Exc TypeError)
  /\ (forall current_time relative new_rgb color_index,
         ColorMapper.color_id (rgb_colors_array st) new_rgb = Val color_index ->
         snd (place_and_pace net username current_time relative new_rgb st)
         = Exc TypeError).
Proof.
  intros Htok.
  assert (H : forall color_index coord,
             snd (set_pixel_and_check_ratelimit net color_index coord username st)
             = Exc TypeError).
  { intros color_index coord. unfold set_pixel_and_check_ratelimit.
    rewrite Htok. cbn [snd].
    now rewrite set_pixel_numpy_coordinate_raises. }
  split; [exact H|].
  intros current_time relative new_rgb color_index Hid.
  unfold place_and_pace. rewrite Hid. cbn [snd]. now rewrite H.
Qed.

Lemma placement_attempt_raises_type_error_witness :
  (forall color_index coord,
      snd (set_pixel_and_check_ratelimit (fun _ => Val (Scene.placed 1300000))
             color_index coord "alice" Scene.loaded)
      = Exc TypeError)
  /\ (forall current_time relative new_rgb color_index,
         ColorMapper.color_id (rgb_colors_array Scene.loaded) new_rgb = Val color_index ->
         snd (place_and_pace (fun _ => Val (Scene.placed 1300000)) "alice"
                current_time relative new_rgb Scene.loaded)
         = Exc TypeError).
Proof.
  apply (placement_attempt_raises_type_error (fun _ => Val (Scene.placed 1300000))
           "alice" Scene.loaded (JStr "token-1")).
  reflexivity.
Defined.

(** ** Logging in *)

(** X6.  A login answered with status 200 and session data that hold a
    string token and a number of seconds, and no error entry, stores the
    token and the expiry time now + seconds for the identity.  From then
    on the token counts as due for refresh exactly from the expiry time
    on (the expiry time being other than 0). *)
Theorem login_stores_token (kv : list (string * json)) (tok : string) (seconds : Q)
    (username password index : string) (now : Q) (st : PlaceClient) :
  dict_lookup kv "error" = None ->
  dict_lookup kv "accessToken" = Some (JStr tok) ->
  dict_lookup kv "expiresIn" = Some (JNum seconds) ->
  ~ (now + seconds == 0)%Q ->
  login (mkLogin (Some 200) (Val (JObj kv))) username password index now st
  = (set_expires_at index (now + seconds)%Q (set_access_token index (JStr tok) st), Val tt)
  /\ access_tokens
       (fst (login (mkLogin (Some 200) (Val (JObj kv))) username password index now st))
     !! index = Some (JStr tok)
  /\ forall t,
       needs_login index t
         (fst (login (mkLogin (Some 200) (Val (JObj kv))) username password index now st))
       = true
       <-> (now + seconds <= t)%Q.
Proof.
  intros Herr Htok Hexp Hnz.
  assert (H : login (mkLogin (Some 200) (Val (JObj kv))) username password index now st
              = (set_expires_at index (now + seconds)%Q
                   (set_access_token index (JStr tok) st), Val tt)).
  { unfold login, mbind, py_bind, lift, modify. simpl.
    rewrite Herr. simpl. rewrite Htok. simpl. rewrite Hexp. reflexivity. }
  rewrite H. simpl. split; [reflexivity|]. split; [apply lookup_insert_eq|].
  intros t. unfold needs_login. simpl. rewrite !lookup_insert_eq.
  destruct (Qeq_bool (now + seconds) 0) eqn:E.
  - apply Qeq_bool_iff in E. contradiction.
  - simpl. apply Qle_bool_iff.
Qed.

Lemma login_stores_token_witness :
  login Scene.login_ok "alice" "pw-a" "alice" 1000 Scene.fresh
  = (set_expires_at "alice" (1000 + 3600)%Q
       (set_access_token "alice" (JStr "token-1") Scene.fresh), Val tt)
  /\ access_tokens (fst (login Scene.login_ok "alice" "pw-a" "alice" 1000 Scene.fresh))
     !! "alice" = Some (JStr "token-1")
  /\ forall t,
       needs_login "alice" t
         (fst (login Scene.login_ok "alice" "pw-a" "alice" 1000 Scene.fresh)) = true
       <-> (1000 + 3600 <= t)%Q.
Proof.
  apply (login_stores_token
           [("accessToken", JStr "token-1"); ("expiresIn", JNum 3600)]
           "token-1" 3600 "alice" "pw-a" "alice" 1000 Scene.fresh);
    [reflexivity | reflexivity | reflexivity | discriminate].
Defined.

(** X7.  Whatever the login exchange delivers and however the call
    ends, [login] changes nothing but the token and the expiry time of
    the identity it is called for: the entries of every other identity,
    the template, the board, the queue and the flags are as before. *)
Theorem login_touches_one_identity (x : LoginExchange)
    (username password index other : string) (now : Q) (st : PlaceClient) :
  other <> index ->
  access_tokens (fst (login x username password index now st)) !! other
  = access_tokens st !! other
  /\ access_token_expires_at_timestamp (fst (login x username password index now st))
     !! other
     = access_token_expires_at_timestamp st !! other
  /\ template (fst (login x username password index now st)) = template st
  /\ board (fst (login x username password index now st)) = board st
  /\ wrong_pixels (fst (login x username password index now st)) = wrong_pixels st
  /\ coord (fst (login x username password index now st)) = coord st
  /\ board_outdated (fst (login x username password index now st)) = board_outdated st
  /\ template_outdated (fst (login x username password index now st))
     = template_outdated st
  /\ stop_event (fst (login x username password index now st)) = stop_event st.
Proof.
  intros Hne.
  unfold login, mbind, py_bind, lift, modify, raise.
  destruct (login_status x) as [status|]; [|repeat split].
  destruct (negb (status =? 200)); [repeat split|].
  destruct (session x) as [rd|e]; [|repeat split].
  destruct (contains "error" rd) as [[]|e]; [repeat split | | repeat split].
  destruct (getitem rd "accessToken") as [tok|e]; [|repeat split].
  destruct (getitem rd "expiresIn") as [ex|e]; simpl.
  - destruct (add_number now ex) as [t|e]; simpl;
      repeat split; try (apply lookup_insert_ne; congruence).
  - repeat split; apply lookup_insert_ne; congruence.
Qed.

Lemma login_touches_one_identity_witness :
  access_tokens (fst (login Scene.login_ok "bob" "pw-b" "bob" 1020 Scene.loaded))
  !! "alice"
  = access_tokens Scene.loaded !! "alice"
  /\ access_token_expires_at_timestamp
       (fst (login Scene.login_ok "bob" "pw-b" "bob" 1020 Scene.loaded)) !! "alice"
     = access_token_expires_at_timestamp Scene.loaded !! "alice"
  /\ template (fst (login Scene.login_ok "bob" "pw-b" "bob" 1020 Scene.loaded))
     = template Scene.loaded
  /\ board (fst (login Scene.login_ok "bob" "pw-b" "bob" 1020 Scene.loaded))
     = board Scene.loaded
  /\ wrong_pixels (fst (login Scene.login_ok "bob" "pw-b" "bob" 1020 Scene.loaded))
     = wrong_pixels Scene.loaded
  /\ coord (fst (login Scene.login_ok "bob" "pw-b" "bob" 1020 Scene.loaded))
     = coord Scene.loaded
  /\ board_outdated (fst (login Scene.login_ok "bob" "pw-b" "bob" 1020 Scene.loaded))
     = board_outdated Scene.loaded
  /\ template_outdated (fst (login Scene.login_ok "bob" "pw-b" "bob" 1020 Scene.loaded))
     = template_outdated Scene.loaded
  /\ stop_event (fst (login Scene.login_ok "bob" "pw-b" "bob" 1020 Scene.loaded))
     = stop_event Scene.loaded.
Proof.
  apply (login_touches_one_identity Scene.login_ok "bob" "pw-b" "bob" "alice" 1020
           Scene.loaded).
  discriminate.
Defined.

(** X8.  Session data with a token but without [expiresIn]: the token
    is already stored when the lookup raises [KeyError]; no expiry time
    is recorded. *)
Theorem login_without_expiry (kv : list (string * json)) (tok : json)
    (username password index : string) (now : Q) (st : PlaceClient) :
  dict_lookup kv "error" = None ->
  dict_lookup kv "accessToken" = Some tok ->
  dict_lookup kv "expiresIn" = None ->
  login (mkLogin (Some 200) (Val (JObj kv))) username password index now st
  = (set_access_token index tok st, Exc KeyError)
  /\ access_token_expires_at_timestamp
       (fst (login (mkLogin (Some 200) (Val (JObj kv))) username password index now st))
     = access_token_expires_at_timestamp st.
Proof.
  intros Herr Htok Hexp.
  assert (H : login (mkLogin (Some 200) (Val (JObj kv))) username password index now st
              = (set_access_token index tok st, Exc KeyError)).
  { unfold login, mbind, py_bind, lift, modify. simpl.
    rewrite Herr. simpl. rewrite Htok. simpl. rewrite Hexp. reflexivity. }
  rewrite H. split; reflexivity.
Qed.

Lemma login_without_expiry_witness :
  login (mkLogin (Some 200) (Val (JObj [("accessToken", JStr "t")])))
        "bob" "pw-b" "bob" 1000 Scene.fresh
  = (set_access_token "bob" (JStr "t") Scene.fresh, Exc KeyError)
  /\ access_token_expires_at_timestamp
       (fst (login (mkLogin (Some 200) (Val (JObj [("accessToken", JStr "t")])))
                   "bob" "pw-b" "bob" 1000 Scene.fresh))
     = access_token_expires_at_timestamp Scene.fresh.
Proof.
  apply (login_without_expiry [("accessToken", JStr "t")] (JStr "t")
           "bob" "pw-b" "bob" 1000 Scene.fresh); reflexivity.
Defined.

(** ** Stop requests *)

(** X9.  A stop request seen at the top of the loop makes [task]
    return.  One seen while the worker polls in [get_wrong_pixel] makes
    that method return None, which [task] cannot unpack: the thread ends
    with [TypeError]. *)
Theorem stop_request_ends_thread (inp : Inputs) (username password : string)
    (st : PlaceClient) :
  stop_event (apply_events (in_events inp) st) = true ->
  (forall time_to_wait,
      thread_step inp username password (AtWait time_to_wait) st
      = (apply_events (in_events inp) st, Stopped))
  /\ (forall rest,
        get_wrong_pixel (mkPoll (in_events inp) (in_collab inp) :: rest) username st
        = (apply_events (in_events inp) st, Val ReturnedNone))
  /\ (forall current_time,
        thread_step inp username password (AtAcquire current_time) st
        = (apply_events (in_events inp) st, Raised TypeError)).
Proof.
  intros Hstop.
  assert (Hround : get_wrong_pixel_round (mkPoll (in_events inp) (in_collab inp))
                     username st
                   = (apply_events (in_events inp) st, Val ReturnedNone)).
  { unfold get_wrong_pixel_round, mbind, py_bind, gets, modify. simpl.
    now rewrite Hstop. }
  split; [|split].
  - intros time_to_wait. simpl. now rewrite Hstop.
  - intros rest. simpl. unfold mbind, py_bind. now rewrite Hround.
  - intros current_time. unfold thread_step. now rewrite Hround.
Qed.

Lemma stop_request_ends_thread_witness :
  (forall time_to_wait,
      thread_step (mkInputs [StopSet] 1020 Scene.login_ok Scene.collab_2x2 Scene.no_net)
                  "bob" "pw-b" (AtWait time_to_wait) Scene.loaded
      = (apply_events [StopSet] Scene.loaded, Stopped))
  /\ (forall rest,
        get_wrong_pixel (mkPoll [StopSet] Scene.collab_2x2 :: rest) "bob" Scene.loaded
        = (apply_events [StopSet] Scene.loaded, Val ReturnedNone))
  /\ (forall current_time,
        thread_step (mkInputs [StopSet] 1020 Scene.login_ok Scene.collab_2x2 Scene.no_net)
                    "bob" "pw-b" (AtAcquire current_time) Scene.loaded
        = (apply_events [StopSet] Scene.loaded, Raised TypeError)).
Proof.
  apply (stop_request_ends_thread
           (mkInputs [StopSet] 1020 Scene.login_ok Scene.collab_2x2 Scene.no_net)
           "bob" "pw-b" Scene.loaded).
  reflexivity.
Defined.

(** ** More on [update] *)

(** X10.  A board fetch that fails, because the caller has no token or
    because [get_board] raises, has already lowered the board flag: the
    exception leaves the flag down and the old board and queue in place,
    and with a board held the next call does not try again. *)
Theorem failed_board_fetch_loses_request (env : Collab) (username : string)
    (st : PlaceClient) :
  template_outdated st = false ->
  (board_outdated st || is_None (board st))%bool = true ->
  (forall tok, access_tokens st !! username = Some tok ->
               exists e, get_board env tok = Exc e) ->
  (exists e, update env username st = (set_board_outdated false st, Exc e))
  /\ (forall env' b, board st = Some b ->
        update env' username (set_board_outdated false st)
        = (set_board_outdated false st, Val tt)).
Proof.
  intros Ht Hgate Hfail. split.
  - unfold update, update_template, update_board, mbind, py_bind, gets, modify,
      lift, lookup_token. simpl.
    rewrite Ht. simpl. rewrite Hgate. simpl.
    destruct (access_tokens st !! username) as [tok|] eqn:Etok.
    + destruct (Hfail tok eq_refl) as [e He]. rewrite He. eauto.
    + eauto.
  - intros env' b Hb.
    unfold update, update_template, update_board, mbind, py_bind, gets, modify. simpl.
    rewrite Ht. simpl. rewrite Hb. reflexivity.
Qed.

Lemma failed_board_fetch_loses_request_witness :
  (exists e, update Scene.collab_2x2 "bob" (apply_events [BoardOutdatedSet] Scene.loaded)
             = (set_board_outdated false (apply_events [BoardOutdatedSet] Scene.loaded),
                Exc e))
  /\ (forall env' b, board (apply_events [BoardOutdatedSet] Scene.loaded) = Some b ->
        update env' "bob"
               (set_board_outdated false (apply_events [BoardOutdatedSet] Scene.loaded))
        = (set_board_outdated false (apply_events [BoardOutdatedSet] Scene.loaded),
           Val tt)).
Proof.
  apply (failed_board_fetch_loses_request Scene.collab_2x2 "bob"
           (apply_events [BoardOutdatedSet] Scene.loaded));
    [reflexivity | reflexivity | intros tok H; vm_compute in H; discriminate H].
Defined.

(** X11.  After a board refresh the cell (i, j) of the snapshot holds
    the canvas pixel at x = coord.x + j, y = coord.y + i (black outside
    the canvas): rows are lines.  The request [task] builds for the
    queue position (i, j) addresses x = coord.x + i, y = coord.y + j:
    the row index is added to x and the column index to y. *)
Theorem snapshot_rows_are_lines (env : Collab) (username : string) (st : PlaceClient)
    (tok : json) (img : Image RGB) :
  template_outdated st = false ->
  (board_outdated st || is_None (board st))%bool = true ->
  access_tokens st !! username = Some tok ->
  get_board env tok = Val img ->
  exists b,
    board (fst (update env username st)) = Some b
    /\ coord (fst (update env username st)) = coord st
    /\ (forall i j, (i < nrows b)%nat -> (j < ncols b)%nat ->
          item b i j
          = canvas_pixel img (fst (coord st) + Z.of_nat j) (snd (coord st) + Z.of_nat i))
    /\ (forall net current_time i j new_rgb color_index,
          ColorMapper.color_id (rgb_colors_array st) new_rgb = Val color_index ->
          fst (place_and_pace net username current_time (coord_of (i, j)) new_rgb
                              (fst (update env username st)))
          = [mkRequest ((fst (coord st) + Z.of_nat i) mod 1000,
                        (snd (coord st) + Z.of_nat j) mod 1000)
                       color_index
                       ((fst (coord st) + Z.of_nat i) / 1000
                        + 3 * ((snd (coord st) + Z.of_nat j) / 1000)) tok]).
Proof.
  intros Ht Hgate Htok Himg.
  assert (H : update env username st
              = (set_wrong_pixels []
                   (set_board (Some (np_array
                      (crop img (fst (coord st)) (snd (coord st))
                            (fst (coord st) + fst (size st))
                            (snd (coord st) + snd (size st)))))
                      (set_board_outdated false st)), Val tt)).
  { unfold update, update_template, update_board, mbind, py_bind, gets, modify,
      lift, lookup_token. simpl.
    rewrite Ht. simpl. rewrite Hgate. simpl. rewrite Htok, Himg. reflexivity. }
  rewrite H. simpl. eexists. split; [reflexivity|]. split; [reflexivity|]. split.
  - intros i j _ _. reflexivity.
  - intros net current_time i j new_rgb color_index Hid.
    unfold place_and_pace. simpl. rewrite Hid.
    unfold set_pixel_and_check_ratelimit. simpl. rewrite Htok. reflexivity.
Qed.

Lemma snapshot_rows_are_lines_witness :
  exists b,
    board (fst (update Scene.collab_2x2 "alice"
                  (apply_events [BoardOutdatedSet] (client Scene.sys1)))) = Some b
    /\ coord (fst (update Scene.collab_2x2 "alice"
                     (apply_events [BoardOutdatedSet] (client Scene.sys1))))
       = coord (apply_events [BoardOutdatedSet] (client Scene.sys1))
    /\ (forall i j, (i < nrows b)%nat -> (j < ncols b)%nat ->
          item b i j
          = canvas_pixel Scene.black_canvas
              (fst (coord (apply_events [BoardOutdatedSet] (client Scene.sys1)))
               + Z.of_nat j)
              (snd (coord (apply_events [BoardOutdatedSet] (client Scene.sys1)))
               + Z.of_nat i))
    /\ (forall net current_time i j new_rgb color_index,
          ColorMapper.color_id
            (rgb_colors_array (apply_events [BoardOutdatedSet] (client Scene.sys1)))
            new_rgb = Val color_index ->
          fst (place_and_pace net "alice" current_time (coord_of (i, j)) new_rgb
                 (fst (update Scene.collab_2x2 "alice"
                         (apply_events [BoardOutdatedSet] (client Scene.sys1)))))
          = [mkRequest
               ((fst (coord (apply_events [BoardOutdatedSet] (client Scene.sys1)))
                 + Z.of_nat i) mod 1000,
                (snd (coord (apply_events [BoardOutdatedSet] (client Scene.sys1)))
                 + Z.of_nat j) mod 1000)
               color_index
               ((fst (coord (apply_events [BoardOutdatedSet] (client Scene.sys1)))
                 + Z.of_nat i) / 1000
                + 3 * ((snd (coord (apply_events [BoardOutdatedSet] (client Scene.sys1)))
                        + Z.of_nat j) / 1000))
               (JStr "token-1")]).
Proof.
  apply (snapshot_rows_are_lines Scene.collab_2x2 "alice"
           (apply_events [BoardOutdatedSet] (client Scene.sys1))
           (JStr "token-1") Scene.black_canvas); reflexivity.
Defined.

(** ** Order of the queue *)

Lemma seq_strongly_sorted (a n : nat) : StronglySorted lt (seq a n).
Proof.
  revert a. induction n as [|n IH]; intros a; simpl; constructor; [apply IH|].
  apply Forall_forall. intros x Hx. apply list_elem_of_In, in_seq in Hx. lia.
Qed.

Lemma list_prod_row_major (l l' : list nat) :
  StronglySorted lt l -> StronglySorted lt l' ->
  StronglySorted nat_row_major_lt (list_prod l l').
Proof.
  intros Hl Hl'. induction Hl as [|a l Hl IH Ha]; simpl; [constructor|].
  apply StronglySorted_app_2.
  - intros x1 x2 H1 H2.
    apply list_elem_of_In, in_map_iff in H1. destruct H1 as (y & <- & _).
    destruct x2 as [a2 b2]. apply list_elem_of_In, in_prod_iff in H2.
    destruct H2 as [H2 _]. left. simpl.
    rewrite Forall_forall in Ha. apply Ha. now apply list_elem_of_In.
  - clear IH. induction Hl' as [|b l' Hl' IH' Hb]; simpl; constructor; [exact IH'|].
    apply Forall_forall. intros x Hx.
    apply list_elem_of_In, in_map_iff in Hx. destruct Hx as (y & <- & Hy).
    right. simpl. split; [reflexivity|].
    rewrite Forall_forall in Hb. apply Hb. now apply list_elem_of_In.
  - exact IH.
Qed.

Lemma filter_strongly_sorted {A} (R : A -> A -> Prop) (f : A -> bool) (l : list A) :
  StronglySorted R l -> StronglySorted R (List.filter f l).
Proof.
  induction 1 as [|x l Hl IH Hx]; simpl; [constructor|].
  destruct (f x); [|exact IH].
  constructor; [exact IH|].
  rewrite Forall_forall in Hx. apply Forall_forall. intros y Hy.
  apply list_elem_of_In, filter_In in Hy. apply Hx, list_elem_of_In. tauto.
Qed.

Lemma map_strongly_sorted {A B} (R : A -> A -> Prop) (R' : B -> B -> Prop)
    (f : A -> B) (l : list A) :
  (forall x y, R x y -> R' (f x) (f y)) ->
  StronglySorted R l -> StronglySorted R' (map f l).
Proof.
  intros Hf. induction 1 as [|x l Hl IH Hx]; simpl; constructor; [exact IH|].
  rewrite Forall_forall in Hx. apply Forall_forall. intros y Hy.
  apply list_elem_of_In, in_map_iff in Hy. destruct Hy as (z & <- & Hz).
  apply Hf, Hx, list_elem_of_In, Hz.
Qed.

Lemma np_argwhere_row_major (m : ndarray bool) :
  StronglySorted row_major_lt (map coord_of (np_argwhere m)).
Proof.
  apply (map_strongly_sorted nat_row_major_lt).
  - intros [i j] [i' j']. unfold nat_row_major_lt, row_major_lt, coord_of. simpl. lia.
  - apply filter_strongly_sorted, list_prod_row_major; apply seq_strongly_sorted.
Qed.

Lemma np_take_all_length {A} (a : ndarray A) (l : list (nat * nat)) (xs : list A) :
  np_take_all a l = Val xs -> length xs = length l.
Proof.
  revert xs. induction l as [|ij l IH]; intros xs; simpl.
  - intros H. inversion H. reflexivity.
  - unfold mbind, res_bind. destruct (np_take a ij); [|discriminate].
    destruct (np_take_all a l) as [ys|]; [|discriminate].
    intros H. inversion H. simpl. f_equal. now apply IH.
Qed.

Lemma map_fst_zip {A B} (l : list A) (k : list B) :
  length k = length l -> map fst (zip l k) = l.
Proof.
  revert k. induction l as [|x l IH]; intros [|y k] Hlen; simpl in *;
    try reflexivity; try discriminate.
  f_equal. apply IH. lia.
Qed.

(** What a recomputation leaves in the queue: the positions of the mask,
    each with a colour. *)
Lemma compute_wrong_pixels_positions (username : string) (st st' : PlaceClient) :
  wrong_pixels st = [] ->
  compute_wrong_pixels username st = (st', Val tt) ->
  exists m, map fst (wrong_pixels st') = map coord_of (np_argwhere m).
Proof.
  intros Hq.
  unfold compute_wrong_pixels, mbind, py_bind, gets, lift, modify. simpl.
  rewrite Hq. cbn beta iota. simpl.
  destruct (wrong_mask _ _ _) as [m|e]; [|discriminate].
  destruct (np_take_all _ (np_argwhere m)) as [colors|e] eqn:Etake; [|discriminate].
  intros H. inversion H. simpl. exists m.
  apply map_fst_zip. rewrite length_map. now apply np_take_all_length in Etake.
Qed.

Lemma row_major_lt_irrefl (a : Z * Z) : ~ row_major_lt a a.
Proof. unfold row_major_lt. lia. Qed.

Lemma strongly_sorted_nodup (l : list (Z * Z)) :
  StronglySorted row_major_lt l -> NoDup l.
Proof.
  induction 1 as [|x l Hl IH Hx]; constructor; [|exact IH].
  intros Hin. rewrite Forall_forall in Hx.
  exact (row_major_lt_irrefl x (Hx x Hin)).
Qed.

(** X12.  A recomputation fills the queue in reading order of the
    template (row by row, left to right), and no position is queued
    twice. *)
Theorem queue_in_reading_order (username : string) (st st' : PlaceClient) :
  wrong_pixels st = [] ->
  compute_wrong_pixels username st = (st', Val tt) ->
  StronglySorted row_major_lt (map fst (wrong_pixels st'))
  /\ NoDup (map fst (wrong_pixels st')).
Proof.
  intros Hq Hc.
  destruct (compute_wrong_pixels_positions username st st' Hq Hc) as [m Hm].
  rewrite Hm.
  pose proof (np_argwhere_row_major m) as Hs.
  split; [exact Hs | now apply strongly_sorted_nodup].
Qed.

Lemma queue_in_reading_order_witness :
  StronglySorted row_major_lt
    (map fst (wrong_pixels (fst (compute_wrong_pixels "alice" Scene.boarded))))
  /\ NoDup (map fst (wrong_pixels (fst (compute_wrong_pixels "alice" Scene.boarded)))).
Proof.
  apply (queue_in_reading_order "alice" Scene.boarded
           (fst (compute_wrong_pixels "alice" Scene.boarded))); reflexivity.
Defined.

(** X13.  The entry [get_wrong_pixel] takes from a freshly computed
    queue is the last wrong pixel in reading order: every entry that
    stays in the queue comes before it. *)
Theorem pop_takes_last_in_reading_order (username : string) (st st1 : PlaceClient) :
  wrong_pixels st = [] ->
  compute_wrong_pixels username st = (st1, Val tt) ->
  wrong_pixels st1 <> [] ->
  exists x,
    pop_wrong_pixel st1
    = (set_wrong_pixels (removelast (wrong_pixels st1)) st1, Val x)
    /\ wrong_pixels st1 = removelast (wrong_pixels st1) ++ [x]
    /\ forall y, In y (removelast (wrong_pixels st1)) -> row_major_lt (fst y) (fst x).
Proof.
  intros Hq Hc Hne.
  destruct (compute_wrong_pixels_positions username st st1 Hq Hc) as [m Hm].
  pose proof (np_argwhere_row_major m) as Hs. rewrite <- Hm in Hs.
  destruct (last (wrong_pixels st1)) as [x|] eqn:El;
    [|apply last_None in El; contradiction].
  pose proof El as El'. apply last_Some in El'. destruct El' as [q' Hq'].
  assert (Hrl : removelast (wrong_pixels st1) = q').
  { rewrite Hq'. apply removelast_last. }
  exists x. split; [|split].
  - unfold pop_wrong_pixel, mbind, py_bind, gets, modify. simpl. now rewrite El.
  - now rewrite Hrl.
  - intros y Hy. rewrite Hrl in Hy. rewrite Hq', map_app in Hs. simpl in Hs.
    apply (StronglySorted_app_1_elem_of _ _ _ _ _ Hs).
    + apply list_elem_of_In, in_map. exact Hy.
    + apply list_elem_of_In. now left.
Qed.

Lemma pop_takes_last_in_reading_order_witness :
  exists x,
    pop_wrong_pixel (fst (compute_wrong_pixels "alice" Scene.boarded))
    = (set_wrong_pixels
         (removelast (wrong_pixels (fst (compute_wrong_pixels "alice" Scene.boarded))))
         (fst (compute_wrong_pixels "alice" Scene.boarded)), Val x)
    /\ wrong_pixels (fst (compute_wrong_pixels "alice" Scene.boarded))
       = removelast (wrong_pixels (fst (compute_wrong_pixels "alice" Scene.boarded)))
         ++ [x]
    /\ forall y,
         In y (removelast (wrong_pixels (fst (compute_wrong_pixels "alice" Scene.boarded))))
         -> row_major_lt (fst y) (fst x).
Proof.
  apply (pop_takes_last_in_reading_order "alice" Scene.boarded
           (fst (compute_wrong_pixels "alice" Scene.boarded)));
    [reflexivity | reflexivity | vm_compute; discriminate].
Defined.

(** X14.  When nothing is flagged, the board has the template's shape
    and already shows the quantized template colour at every fully
    opaque template pixel, a polling round queues nothing, changes
    nothing and goes on polling. *)
Theorem round_finds_nothing_on_matching_board (p : Poll) (username : string)
    (st : PlaceClient) (b : ndarray RGB) :
  during_wait p = [] ->
  stop_event st = false ->
  template_outdated st = false ->
  board_outdated st = false ->
  wrong_pixels st = [] ->
  board st = Some b ->
  shape b = shape (template st) ->
  (forall i j, (i < nrows (template st))%nat -> (j < ncols (template st))%nat ->
     alpha (item (template st) i j) = 255 ->
     ColorMapper.closest_color_pixel (rgb_colors_array st)
       (rgb_of (item (template st) i j)) = item b i j) ->
  get_wrong_pixel_round p username st = (st, Val StillPolling).
Proof.
  intros Hev Hstop Ht Hbo Hq Hb Hshape Hmatch.
  set (t := template st) in *.
  set (target_rgb := ColorMapper.closest_color (np_map rgb_of t) (rgb_colors_array st)).
  destruct (wrong_mask_same_shape b target_rgb (np_map alpha t)) as (m & Hm & Hms & Hitem);
    [exact Hshape | reflexivity |].
  inversion Hms as [[Hmr Hmc]].
  assert (Hnone : np_argwhere m = []).
  { destruct (np_argwhere m) as [|[i j] l] eqn:E; [reflexivity|]. exfalso.
    assert (Hin : In (i, j) (np_argwhere m)) by (rewrite E; now left).
    apply np_argwhere_spec in Hin. destruct Hin as (Hi & Hj & Htrue).
    rewrite Hitem in Htrue by assumption.
    apply andb_true_iff in Htrue. destruct Htrue as [Hne Ha].
    apply rgb_neqb_true in Hne. apply Z.eqb_eq in Ha.
    apply Hne. simpl. symmetry. apply Hmatch; [now rewrite <- Hmr | now rewrite <- Hmc | exact Ha]. }
  assert (Hup : update (collab p) username st = (st, Val tt)).
  { unfold update, update_template, update_board, mbind, py_bind, gets, modify. simpl.
    rewrite Ht. simpl. rewrite Hbo, Hb. reflexivity. }
  assert (Hcomp : compute_wrong_pixels username st = (st, Val tt)).
  { unfold compute_wrong_pixels, mbind, py_bind, gets, lift, modify. simpl.
    rewrite Hq. cbn beta iota. simpl. rewrite Hb. fold t. fold target_rgb.
    rewrite Hm, Hnone. simpl.
    destruct st; simpl in *; subst; reflexivity. }
  unfold get_wrong_pixel_round.
  cbv beta iota delta [mbind py_bind gets modify mret py_ret].
  rewrite Hev. change (apply_events [] st) with st.
  rewrite Hstop, Hup, Hcomp, Hq. reflexivity.
Qed.

(** ** Collecting the tiles in [get_board] *)

Lemma list_mem_In (x : Z) (l : list Z) : list_mem x l = true <-> In x l.
Proof.
  unfold list_mem. rewrite existsb_exists. split.
  - intros (y & Hy & E). apply Z.eqb_eq in E. now subst.
  - intros H. exists x. split; [exact H | apply Z.eqb_refl].
Qed.

Lemma list_remove_In (x y : Z) (l : list Z) :
  NoDup l -> (In y (list_remove x l) <-> In y l /\ y <> x).
Proof.
  induction 1 as [|z l Hz Hl IH]; simpl; [tauto|].
  rewrite list_elem_of_In in Hz.
  destruct (Z.eqb_spec x z) as [->|Hne].
  - split; [intros H; split; [now right | intros ->; contradiction] | intros [[->|H] Hn]; [contradiction | exact H]].
  - simpl. rewrite IH. split.
    + intros [->|[H1 H2]]; [split; [now left | congruence] | split; [now right | exact H2]].
    + intros [[->|H1] H2]; [now left | right; tauto].
Qed.

Lemma list_remove_NoDup (x : Z) (l : list Z) : NoDup l -> NoDup (list_remove x l).
Proof.
  induction 1 as [|z l Hz Hl IH]; simpl; [constructor|].
  destruct (x =? z); [exact Hl|].
  constructor; [|exact IH].
  rewrite list_elem_of_In in *. rewrite list_remove_In by exact Hl. tauto.
Qed.

(** What the loop has when it stops, from any set of open subscriptions
    and images held so far. *)
Lemma collect_images_spec (frames : list Frame) :
  forall sockets acc,
    NoDup sockets ->
    NoDup (map fst acc) ->
    (forall id, In id sockets -> ~ In id (map fst acc)) ->
    (forall id, In id (fst (collect_images frames sockets acc))
                <-> In id sockets /\ first_frame frames id = None)
    /\ (forall id img,
          In (id, img) (snd (collect_images frames sockets acc))
          <-> In (id, img) acc
              \/ (In id sockets
                  /\ exists status, first_frame frames id = Some (status, img)
                                    /\ status <> 404))
    /\ NoDup (map fst (snd (collect_images frames sockets acc))).
Proof.
  induction frames as [|f rest IH]; intros sockets acc Hs Hacc Hdis.
  { simpl. split; [|split].
    - intros id. tauto.
    - intros id img. split; [tauto|]. intros [H|(_ & s & H & _)]; [exact H | discriminate].
    - exact Hacc. }
  destruct sockets as [|s0 sockets0].
  { simpl. split; [|split].
    - intros id. tauto.
    - intros id img. tauto.
    - exact Hacc. }
  remember (s0 :: sockets0) as sockets eqn:Es.
  assert (Hunf : collect_images (f :: rest) sockets acc
                 = match f with
                   | FullFrame img_id status_code img =>
                       if list_mem img_id sockets then
                         if negb (status_code =? 404)
                         then collect_images rest (list_remove img_id sockets)
                                             (acc ++ [(img_id, img)])
                         else collect_images rest (list_remove img_id sockets) acc
                       else collect_images rest sockets acc
                   | PassedOver => collect_images rest sockets acc
                   end) by (rewrite Es; reflexivity).
  clear Es s0 sockets0.
  destruct f as [i status img0|]; cbv beta iota in Hunf.
  2:{ rewrite Hunf. simpl first_frame. now apply IH. }
  destruct (list_mem i sockets) eqn:Emem.
  2:{ rewrite Hunf.
      assert (Hni : ~ In i sockets).
      { intros H. apply list_mem_In in H. congruence. }
      destruct (IH sockets acc Hs Hacc Hdis) as (H1 & H2 & H3).
      assert (Hff : forall id, In id sockets ->
                first_frame (FullFrame i status img0 :: rest) id = first_frame rest id).
      { intros id Hin. simpl. destruct (Z.eqb_spec i id); [subst; contradiction | reflexivity]. }
      split; [|split].
      - intros id. rewrite H1. split; intros [Hin Hf]; (split; [exact Hin|]);
          [rewrite Hff | rewrite <- Hff]; assumption.
      - intros id img. rewrite H2. split; (intros [H|(Hin & s & Hf & Hn)]; [now left|]);
          right; (split; [exact Hin|]); exists s; (split; [|exact Hn]);
          [rewrite Hff | rewrite <- Hff]; assumption.
      - exact H3. }
  assert (Hi : In i sockets) by now apply list_mem_In.
  assert (Hs' : NoDup (list_remove i sockets)) by now apply list_remove_NoDup.
  assert (Hff : forall id, id <> i ->
            first_frame (FullFrame i status img0 :: rest) id = first_frame rest id).
  { intros id Hne. simpl. destruct (Z.eqb_spec i id); [congruence | reflexivity]. }
  assert (Hfi : first_frame (FullFrame i status img0 :: rest) i = Some (status, img0)).
  { simpl. now rewrite Z.eqb_refl. }
  destruct (negb (status =? 404)) eqn:Estat.
  - rewrite Hunf.
    apply negb_true_iff, Z.eqb_neq in Estat.
    assert (Hacc' : NoDup (map fst (acc ++ [(i, img0)]))).
    { rewrite map_app. simpl. apply NoDup_app. split; [exact Hacc|]. split.
      - intros x Hx Hx'. apply list_elem_of_In in Hx, Hx'.
        destruct Hx' as [<-|[]]. exact (Hdis i Hi Hx).
      - apply NoDup_singleton. }
    assert (Hdis' : forall id, In id (list_remove i sockets) ->
                               ~ In id (map fst (acc ++ [(i, img0)]))).
    { intros id Hin. apply list_remove_In in Hin; [|exact Hs]. destruct Hin as [Hin Hne].
      rewrite map_app, in_app_iff. simpl. intros [H|[H|[]]]; [exact (Hdis id Hin H) | congruence]. }
    destruct (IH _ _ Hs' Hacc' Hdis') as (H1 & H2 & H3).
    split; [|split].
    + intros id. rewrite H1, list_remove_In by exact Hs. split.
      * intros [[Hin Hne] Hf]. split; [exact Hin|]. now rewrite Hff.
      * intros [Hin Hf]. destruct (Z.eq_dec id i) as [->|Hne]; [congruence|].
        split; [tauto|]. now rewrite <- Hff.
    + intros id img. rewrite H2, in_app_iff, list_remove_In by exact Hs. cbn [In]. split.
      * intros [[H|[H|[]]]|((Hin & Hne) & s & Hf & Hn)].
        -- now left.
        -- inversion H; subst. right. split; [exact Hi|]. exists status. tauto.
        -- right. split; [exact Hin|]. exists s. rewrite Hff by exact Hne. tauto.
      * intros [H|(Hin & s & Hf & Hn)]; [tauto|].
        destruct (Z.eq_dec id i) as [->|Hne].
        -- rewrite Hfi in Hf. inversion Hf; subst. tauto.
        -- right. split; [tauto|]. exists s. rewrite <- Hff by exact Hne. tauto.
    + exact H3.
  - rewrite Hunf.
    apply negb_false_iff, Z.eqb_eq in Estat.
    assert (Hdis' : forall id, In id (list_remove i sockets) -> ~ In id (map fst acc)).
    { intros id Hin. apply list_remove_In in Hin; [|exact Hs]. apply Hdis. tauto. }
    destruct (IH _ _ Hs' Hacc Hdis') as (H1 & H2 & H3).
    split; [|split].
    + intros id. rewrite H1, list_remove_In by exact Hs. split.
      * intros [[Hin Hne] Hf]. split; [exact Hin|]. now rewrite Hff.
      * intros [Hin Hf]. destruct (Z.eq_dec id i) as [->|Hne]; [congruence|].
        split; [tauto|]. now rewrite <- Hff.
    + intros id img. rewrite H2, list_remove_In by exact Hs. split.
      * intros [H|((Hin & Hne) & s & Hf & Hn)]; [now left|].
        right. split; [exact Hin|]. exists s. rewrite Hff by exact Hne. tauto.
      * intros [H|(Hin & s & Hf & Hn)]; [now left|].
        destruct (Z.eq_dec id i) as [->|Hne].
        -- rewrite Hfi in Hf. inversion Hf; subst. contradiction.
        -- right. split; [tauto|]. exists s. rewrite <- Hff by exact Hne. tauto.
    + exact H3.
Qed.

Lemma canvas_sockets_In (n : nat) (id : Z) :
  In id (canvas_sockets n) <-> exists k, (k < n)%nat /\ id = 2 + Z.of_nat k.
Proof.
  unfold canvas_sockets. rewrite in_map_iff. split.
  - intros (k & <- & Hk). apply in_seq in Hk. exists k. split; [lia | reflexivity].
  - intros (k & Hk & ->). exists k. split; [reflexivity | apply in_seq; lia].
Qed.

Lemma canvas_sockets_sorted (n : nat) : StronglySorted Z.lt (canvas_sockets n).
Proof.
  unfold canvas_sockets. apply (map_strongly_sorted lt); [intros; lia|].
  apply seq_strongly_sorted.
Qed.

Lemma strongly_sorted_lt_nodup (l : list Z) : StronglySorted Z.lt l -> NoDup l.
Proof.
  induction 1 as [|x l Hl IH Hx]; constructor; [|exact IH].
  intros Hin. rewrite Forall_forall in Hx. specialize (Hx x Hin). lia.
Qed.

Lemma canvas_sockets_NoDup (n : nat) : NoDup (canvas_sockets n).
Proof. apply strongly_sorted_lt_nodup, canvas_sockets_sorted. Qed.

Lemma collect_images_from_sockets (n : nat) (frames : list Frame) :
  (forall id, In id (fst (collect_images frames (canvas_sockets n) []))
              <-> In id (canvas_sockets n) /\ first_frame frames id = None)
  /\ (forall id img,
        In (id, img) (snd (collect_images frames (canvas_sockets n) []))
        <-> In id (canvas_sockets n)
            /\ exists status, first_frame frames id = Some (status, img)
                              /\ status <> 404)
  /\ NoDup (map fst (snd (collect_images frames (canvas_sockets n) []))).
Proof.
  destruct (collect_images_spec frames (canvas_sockets n) [])
    as (H1 & H2 & H3).
  - apply canvas_sockets_NoDup.
  - constructor.
  - intros id _ [].
  - split; [exact H1|]. split; [|exact H3].
    intros id img. rewrite H2. simpl. tauto.
Qed.


(** X15.  When the loop over the tile messages stops, an image is held
    for a subscription id exactly if the first full frame that arrived
    for this id was downloaded with a status other than 404; later
    frames for the id and frames for other ids are passed over.  A
    subscription stays open exactly if no full frame arrived for it.  No
    id has two images. *)
Theorem collect_images_first_frames (n : nat) (frames : list Frame) :
  (forall id, In id (fst (collect_images frames (canvas_sockets n) []))
              <-> In id (canvas_sockets n) /\ first_frame frames id = None)
  /\ (forall id img,
        In (id, img) (snd (collect_images frames (canvas_sockets n) []))
        <-> In id (canvas_sockets n)
            /\ exists status, first_frame frames id = Some (status, img)
                              /\ status <> 404)
  /\ NoDup (map fst (snd (collect_images frames (canvas_sockets n) []))).
Proof. apply collect_images_from_sockets. Qed.

(** ** Stitching *)

Lemma insert_by_id_perm (x : Z * Image RGB) (l : list (Z * Image RGB)) :
  insert_by_id x l ≡ₚ x :: l.
Proof.
  induction l as [|y l IH]; simpl; [reflexivity|].
  destruct (fst x <=? fst y); [reflexivity|].
  rewrite IH. apply Permutation_swap.
Qed.

Lemma sorted_by_id_perm (l : list (Z * Image RGB)) : sorted_by_id l ≡ₚ l.
Proof.
  induction l as [|x l IH]; simpl; [reflexivity|].
  rewrite insert_by_id_perm. now rewrite IH.
Qed.

Lemma insert_by_id_sorted (x : Z * Image RGB) (l : list (Z * Image RGB)) :
  StronglySorted id_lt l ->
  (forall y, In y l -> fst y <> fst x) ->
  StronglySorted id_lt (insert_by_id x l).
Proof.
  induction 1 as [|y l Hl IH Hy]; intros Hne; simpl.
  - repeat constructor.
  - destruct (Z.leb_spec (fst x) (fst y)) as [Hle|Hgt].
    + assert (Hxy : id_lt x y).
      { unfold id_lt. specialize (Hne y (or_introl eq_refl)). lia. }
      constructor; [now constructor|].
      constructor; [exact Hxy|].
      rewrite Forall_forall in *. intros z Hz. specialize (Hy z Hz).
      unfold id_lt in *. lia.
    + constructor.
      * apply IH. intros z Hz. apply Hne. now right.
      * rewrite Forall_forall in *. intros z Hz.
        apply list_elem_of_In in Hz.
        apply (Permutation_in _ (insert_by_id_perm x l)) in Hz.
        destruct Hz as [<-|Hz]; [unfold id_lt; lia | apply Hy, list_elem_of_In, Hz].
Qed.

Lemma sorted_by_id_sorted (l : list (Z * Image RGB)) :
  NoDup (map fst l) -> StronglySorted id_lt (sorted_by_id l).
Proof.
  induction l as [|x l IH]; simpl; intros Hnd; [constructor|].
  apply NoDup_cons in Hnd. destruct Hnd as [Hx Hnd].
  apply insert_by_id_sorted; [now apply IH|].
  intros y Hy Heq. apply Hx. rewrite <- Heq.
  apply list_elem_of_In, in_map.
  exact (Permutation_in _ (sorted_by_id_perm l) Hy).
Qed.

Lemma paste_width (base img : Image RGB) (dx dy : Z) :
  width (paste base img dx dy) = width base /\ height (paste base img dx dy) = height base.
Proof. split; reflexivity. Qed.

Lemma paste_all_ok (configs : list CanvasConfiguration) (imgs : list (Z * Image RGB)) :
  forall idx base,
    (idx + length imgs <= length configs)%nat ->
    exists r, paste_all configs base idx imgs = Val r
              /\ width r = width base /\ height r = height base.
Proof.
  induction imgs as [|x imgs IH]; intros idx base Hlen; simpl in *.
  - eauto.
  - destruct (nth_error configs idx) as [c|] eqn:E.
    + destruct (IH (S idx) (paste base (snd x) (cfg_dx c) (cfg_dy c))) as (r & Hr & Hw & Hh);
        [lia|]. exists r. auto.
    + apply nth_error_None in E. lia.
Qed.

Lemma collected_at_most_sockets (n : nat) (frames : list Frame) :
  (length (sorted_by_id (snd (collect_images frames (canvas_sockets n) []))) <= n)%nat.
Proof.
  destruct (collect_images_from_sockets n frames) as (_ & H2 & H3).
  rewrite (Permutation_length (sorted_by_id_perm _)).
  rewrite <- (length_map fst).
  assert (Hn : length (canvas_sockets n) = n)
    by (unfold canvas_sockets; now rewrite length_map, length_seq).
  assert (H : (length (map fst (snd (collect_images frames (canvas_sockets n) [])))
               <= length (canvas_sockets n))%nat).
  { apply NoDup_incl_length; [apply NoDup_ListNoDup; exact H3|].
    intros id Hid. apply in_map_iff in Hid. destruct Hid as ([id' img] & <- & Hin).
    apply H2 in Hin. tauto. }
  now rewrite Hn in H.
Qed.

Lemma py_max_spec (l : list Z) (m : Z) :
  py_max l = Val m -> In m l /\ forall x, In x l -> x <= m.
Proof.
  destruct l as [|x l]; simpl; [discriminate|].
  intros H. inversion H as [Hm]. clear H Hm.
  revert x. induction l as [|y l IH]; intros x; simpl.
  - split; [now left | intros z [->|[]]; lia].
  - destruct (IH (Z.max x y)) as [Hin Hle]. split.
    + destruct Hin as [Hin|Hin]; [|now right; right].
      rewrite <- Hin. destruct (Z.max_spec x y) as [[_ ->]|[_ ->]]; [right; now left | now left].
    + intros z [->|[->|Hz]].
      * specialize (Hle (Z.max z y) (or_introl eq_refl)). lia.
      * specialize (Hle (Z.max x z) (or_introl eq_refl)). lia.
      * apply Hle. now right.
Qed.


(** X17.  The stitched image is as wide as the largest horizontal
    offset among the configurations plus the canvas width, and as high
    as the largest vertical offset plus the canvas height. *)
Theorem stitched_size (details : CanvasDetails) (frames : list Frame) (r : Image RGB) :
  get_board_stitched details frames = Some (Val r) ->
  exists max_dx max_dy,
    (In max_dx (map cfg_dx (canvasConfigurations details))
     /\ forall c, In c (canvasConfigurations details) -> cfg_dx c <= max_dx)
    /\ (In max_dy (map cfg_dy (canvasConfigurations details))
        /\ forall c, In c (canvasConfigurations details) -> cfg_dy c <= max_dy)
    /\ Z.of_nat (width r) = max_dx + canvasWidth details
    /\ Z.of_nat (height r) = max_dy + canvasHeight details.
Proof.
  unfold get_board_stitched.
  pose proof (collected_at_most_sockets (length (canvasConfigurations details)) frames)
    as Hlen.
  destruct (fst (collect_images _ _ _)); [|discriminate].
  unfold stitch, mbind, res_bind.
  destruct (py_max (map cfg_dx _)) as [mx|e1] eqn:Ex; [|discriminate].
  destruct (py_max (map cfg_dy _)) as [my|e2] eqn:Ey; [|discriminate].
  unfold new_image.
  destruct ((mx + canvasWidth details <? 0) || (my + canvasHeight details <? 0)) eqn:Eneg;
    [discriminate|].
  apply orb_false_iff in Eneg. rewrite !Z.ltb_ge in Eneg.
  match goal with
  | |- context [paste_all ?cs ?b 0 ?l] =>
      destruct (paste_all_ok cs l 0%nat b) as (r' & Hr & Hw & Hh); [simpl; exact Hlen|]
  end.
  rewrite Hr. intros H. inversion H; subst r'. clear H.
  apply py_max_spec in Ex, Ey. destruct Ex as [Ex1 Ex2], Ey as [Ey1 Ey2].
  exists mx, my. split; [|split; [|split]].
  - split; [exact Ex1|]. intros c Hc. apply Ex2. now apply in_map.
  - split; [exact Ey1|]. intros c Hc. apply Ey2. now apply in_map.
  - rewrite Hw. simpl. lia.
  - rewrite Hh. simpl. lia.
Qed.

Lemma nth_error_is_lookup {A} (l : list A) (i : nat) : nth_error l i = l !! i.
Proof. revert i. induction l as [|x l IH]; intros [|i]; simpl; auto. Qed.

Lemma paste_all_tiles (configs : list CanvasConfiguration) (tiles : list (Image RGB)) :
  forall ids idx base,
    length ids = length tiles ->
    (idx + length tiles <= length configs)%nat ->
    paste_all configs base idx (zip ids tiles)
    = Val (paste_tiles base tiles (drop idx configs)).
Proof.
  induction tiles as [|t tiles IH]; intros [|id ids] idx base Hlen Hle;
    simpl in *; try discriminate.
  - now destruct (drop idx configs).
  - destruct (configs !! idx) as [c|] eqn:E.
    + rewrite nth_error_is_lookup, E. rewrite (drop_S _ _ _ E).
      apply IH; lia.
    + apply lookup_ge_None in E. lia.
Qed.

Lemma zip_ids_sorted (ids : list Z) :
  StronglySorted Z.lt ids ->
  forall tiles : list (Image RGB), StronglySorted id_lt (zip ids tiles).
Proof.
  induction 1 as [|id ids Hs IH Hid]; intros [|t tiles]; simpl; try constructor.
  - apply IH.
  - rewrite Forall_forall in Hid. apply Forall_forall. intros [id' t'] Hin.
    apply elem_of_zip_l in Hin. unfold id_lt. simpl. now apply Hid.
Qed.

Lemma canvas_sockets_lookup (n k : nat) (id : Z) :
  canvas_sockets n !! k = Some id <-> (k < n)%nat /\ id = 2 + Z.of_nat k.
Proof.
  unfold canvas_sockets.
  change (map (fun i => 2 + Z.of_nat i) (seq 0 n))
    with ((fun i => 2 + Z.of_nat i) <$> seq 0 n).
  rewrite list_lookup_fmap. split.
  - intros H. destruct (seq 0 n !! k) as [j|] eqn:E; [|discriminate].
    apply lookup_seq in E. destruct E as [-> Hk]. simpl in H. inversion H. auto.
  - intros [Hk ->]. now rewrite lookup_seq_lt.
Qed.

Lemma id_lt_asym (l1 l2 : list (Z * Image RGB)) :
  forall x1 x2, x1 ∈ l1 -> x2 ∈ l2 -> id_lt x1 x2 -> id_lt x2 x1 -> x1 = x2.
Proof. unfold id_lt. intros. lia. Qed.

(** X18.  When for every subscription the first full frame comes with a
    status other than 404, [get_board] returns the tiles pasted one
    after the other, tile k (subscription id 2 + k) at the offsets of
    configuration k, whatever the order of arrival and whatever else is
    received in between. *)
Theorem all_tiles_stitched (details : CanvasDetails) (tiles : list (Image RGB))
    (frames : list Frame) (max_dx max_dy : Z) (base : Image RGB) :
  length tiles = length (canvasConfigurations details) ->
  (forall k t, tiles !! k = Some t ->
     exists status, first_frame frames (2 + Z.of_nat k) = Some (status, t)
                    /\ status <> 404) ->
  py_max (map cfg_dx (canvasConfigurations details)) = Val max_dx ->
  py_max (map cfg_dy (canvasConfigurations details)) = Val max_dy ->
  new_image (max_dx + canvasWidth details) (max_dy + canvasHeight details) = Val base ->
  get_board_stitched details frames
  = Some (Val (paste_tiles base tiles (canvasConfigurations details))).
Proof.
  intros Hlen Hfirst Hx Hy Hnew.
  set (n := length (canvasConfigurations details)) in *.
  destruct (collect_images_from_sockets n frames) as (H1 & H2 & H3).
  unfold get_board_stitched. fold n.
  set (r := collect_images frames (canvas_sockets n) []) in *.
  assert (Hopen : fst r = []).
  { destruct (fst r) as [|id l] eqn:E; [reflexivity|]. exfalso.
    destruct (H1 id) as [Hid _]. destruct (Hid (or_introl eq_refl)) as [Hin Hnone].
    apply canvas_sockets_In in Hin. destruct Hin as (k & Hk & ->).
    destruct (lookup_lt_is_Some_2 tiles k) as [t Ht]; [lia|].
    destruct (Hfirst k t Ht) as (s & Hs & _). congruence. }
  rewrite Hopen.
  assert (Hsorted : sorted_by_id (snd r) = zip (canvas_sockets n) tiles).
  { apply (StronglySorted_unique_strong id_lt).
    - apply id_lt_asym.
    - now apply sorted_by_id_sorted.
    - apply zip_ids_sorted, canvas_sockets_sorted.
    - rewrite sorted_by_id_perm. apply NoDup_Permutation.
      + apply (NoDup_fmap_1 fst). exact H3.
      + apply (NoDup_fmap_1 fst).
        change (fst <$> zip (canvas_sockets n) tiles)
          with (map fst (zip (canvas_sockets n) tiles)).
        rewrite map_fst_zip; [apply canvas_sockets_NoDup|].
        unfold canvas_sockets. rewrite length_map, length_seq. exact Hlen.
      + intros [id img]. rewrite list_elem_of_In, H2.
        rewrite (elem_of_lookup_zip_with pair (canvas_sockets n) tiles (id, img)). split.
        * intros (Hin & s & Hs & Hne).
          apply canvas_sockets_In in Hin. destruct Hin as (k & Hk & ->).
          destruct (lookup_lt_is_Some_2 tiles k) as [t Ht]; [lia|].
          destruct (Hfirst k t Ht) as (s' & Hs' & _).
          rewrite Hs in Hs'. inversion Hs'; subst.
          exists k, (2 + Z.of_nat k), t. split; [reflexivity|].
          split; [now apply canvas_sockets_lookup | exact Ht].
        * intros (k & id' & t & Heq & Hk & Ht). inversion Heq; subst.
          apply canvas_sockets_lookup in Hk. destruct Hk as [Hk ->].
          split; [apply canvas_sockets_In; eauto|]. now apply Hfirst. }
  unfold stitch, mbind, res_bind. rewrite Hx, Hy, Hnew, Hsorted.
  rewrite paste_all_tiles.
  - reflexivity.
  - unfold canvas_sockets. rewrite length_map, length_seq. now symmetry.
  - simpl. fold n. lia.
Qed.

Lemma stitched_size_witness :
  exists max_dx max_dy,
    (In max_dx (map cfg_dx (canvasConfigurations Tiles.details))
     /\ forall c, In c (canvasConfigurations Tiles.details) -> cfg_dx c <= max_dx)
    /\ (In max_dy (map cfg_dy (canvasConfigurations Tiles.details))
        /\ forall c, In c (canvasConfigurations Tiles.details) -> cfg_dy c <= max_dy)
    /\ Z.of_nat (width (paste (paste Tiles.blank Tiles.tile_a 0 0) Tiles.tile_b 1000 0))
       = max_dx + canvasWidth Tiles.details
    /\ Z.of_nat (height (paste (paste Tiles.blank Tiles.tile_a 0 0) Tiles.tile_b 1000 0))
       = max_dy + canvasHeight Tiles.details.
Proof.
  apply (stitched_size Tiles.details Tiles.frames_all
           (paste (paste Tiles.blank Tiles.tile_a 0 0) Tiles.tile_b 1000 0)).
  reflexivity.
Defined.

Lemma all_tiles_stitched_witness :
  get_board_stitched Tiles.details Tiles.frames_all
  = Some (Val (paste_tiles Tiles.blank [Tiles.tile_a; Tiles.tile_b]
                           (canvasConfigurations Tiles.details))).
Proof.
  apply (all_tiles_stitched Tiles.details [Tiles.tile_a; Tiles.tile_b]
           Tiles.frames_all 1000 0 Tiles.blank);
    try reflexivity.
  intros k t H. destruct k as [|[|k]]; simpl in H; inversion H; subst;
    exists 200; (split; [reflexivity | discriminate]).
Defined.

(** X19.  With two canvases, when the download for the first
    subscription is answered with 404 and the tile of the second one
    arrives, that tile is pasted at the offsets of the first
    configuration: the images are matched to the configurations by
    their rank among the images received, not by their id. *)
Theorem tile_after_missing_tile_is_shifted (c0 c1 : CanvasConfiguration)
    (w h : Z) (frames : list Frame) (a b : Image RGB) (status : Z) (base : Image RGB) :
  first_frame frames 2 = Some (404, a) ->
  first_frame frames 3 = Some (status, b) ->
  status <> 404 ->
  new_image (Z.max (cfg_dx c0) (cfg_dx c1) + w) (Z.max (cfg_dy c0) (cfg_dy c1) + h)
  = Val base ->
  get_board_stitched (mkDetails [c0; c1] w h) frames
  = Some (Val (paste base b (cfg_dx c0) (cfg_dy c0))).
Proof.
  intros H2 H3 Hs Hnew.
  destruct (collect_images_from_sockets 2 frames) as (Hopen & Himgs & Hnd).
  unfold get_board_stitched. simpl length.
  set (r := collect_images frames (canvas_sockets 2) []) in *.
  assert (Hsock : forall id, In id (canvas_sockets 2) <-> id = 2 \/ id = 3).
  { intros id. unfold canvas_sockets. simpl. intuition lia. }
  assert (Hr1 : fst r = []).
  { destruct (fst r) as [|id l] eqn:E; [reflexivity|]. exfalso.
    destruct (Hopen id) as [Hid _]. destruct (Hid (or_introl eq_refl)) as [Hin Hnone].
    apply Hsock in Hin. destruct Hin as [-> | ->]; congruence. }
  assert (Hr2 : snd r = [(3, b)]).
  { apply Permutation_singleton_r, NoDup_Permutation.
    - apply (NoDup_fmap_1 fst). exact Hnd.
    - apply NoDup_singleton.
    - intros [id img]. rewrite list_elem_of_In, Himgs, Hsock, list_elem_of_singleton.
      split.
      + intros ([-> | ->] & s & Hf & Hne).
        * rewrite H2 in Hf. inversion Hf. congruence.
        * rewrite H3 in Hf. inversion Hf. reflexivity.
      + intros H. inversion H; subst. split; [now right|]. eauto. }
  rewrite Hr1, Hr2.
  unfold stitch, mbind, res_bind.
  cbn [py_max map fold_left canvasConfigurations canvasWidth canvasHeight].
  rewrite Hnew. reflexivity.
Qed.

Lemma tile_after_missing_tile_is_shifted_witness :
  get_board_stitched (mkDetails [mkConfiguration 0 0 0; mkConfiguration 1 1000 0] 1000 1000)
                     Tiles.frames_missing
  = Some (Val (paste Tiles.blank Tiles.tile_b
                     (cfg_dx (mkConfiguration 0 0 0)) (cfg_dy (mkConfiguration 0 0 0)))).
Proof.
  apply (tile_after_missing_tile_is_shifted
           (mkConfiguration 0 0 0) (mkConfiguration 1 1000 0) 1000 1000
           Tiles.frames_missing Tiles.tile_a Tiles.tile_b 200 Tiles.blank);
    [reflexivity | reflexivity | discriminate | reflexivity].
Defined.

Lemma round_finds_nothing_on_matching_board_witness :
  get_wrong_pixel_round (mkPoll [] Quiet.collab) "alice" Quiet.settled
  = (Quiet.settled, Val StillPolling).
Proof.
  apply (round_finds_nothing_on_matching_board (mkPoll [] Quiet.collab) "alice"
           Quiet.settled Quiet.settled_board); try reflexivity.
  intros i j Hi Hj Ha.
  destruct i as [|i]; [|vm_compute in Hi; lia].
  destruct j as [|[|j]]; [reflexivity | vm_compute in Ha; discriminate Ha
                         | vm_compute in Hj; lia].
Defined.

(** ** The main loop of [start] *)

(** X20.  While some worker is alive the main loop raises the board
    flag once per second and the template flag once per hundred
    seconds: after n seconds, starting with i passes of the inner loop
    done, the board flag was raised n times and the template flag
    (i + n) / 100 times, and the loop goes on. *)
Theorem coordinator_cadence (n i : nat) :
  (i < 100)%nat ->
  length (List.filter is_board_event (fst (coordinator (repeat true n) i))) = n
  /\ length (List.filter is_template_event (fst (coordinator (repeat true n) i)))
     = ((i + n) / 100)%nat
  /\ snd (coordinator (repeat true n) i) = false.
Proof.
  revert i. induction n as [|n IH]; intros i Hi.
  { cbn [repeat coordinator fst snd List.filter length].
    rewrite Nat.add_0_r, Nat.div_small by lia. auto. }
  cbn [repeat coordinator].
  destruct (Nat.eqb_spec (S i) 100) as [E|E].
  - destruct (IH 0%nat) as (H1 & H2 & H3); [lia|].
    cbn [fst snd List.filter is_board_event is_template_event length].
    rewrite H1, H2, H3. split; [reflexivity|]. split; [|reflexivity].
    replace (i + S n)%nat with (n + 1 * 100)%nat by lia.
    rewrite Nat.div_add by lia. rewrite Nat.add_0_l. lia.
  - destruct (IH (S i)) as (H1 & H2 & H3); [lia|].
    cbn [fst snd List.filter is_board_event is_template_event length].
    rewrite H1, H2, H3. split; [reflexivity|]. split; [|reflexivity].
    f_equal. lia.
Qed.

Lemma coordinator_cadence_witness :
  length (List.filter is_board_event (fst (coordinator (repeat true 250) 0))) = 250%nat
  /\ length (List.filter is_template_event (fst (coordinator (repeat true 250) 0)))
     = ((0 + 250) / 100)%nat
  /\ snd (coordinator (repeat true 250) 0) = false.
Proof.
  apply (coordinator_cadence 250 0). lia.
Defined.

(** X21.  The main loop raises the template flag only right after it
    has raised the board flag, and it never sets the stop event: in the
    list of what it does, every raising of the template flag is preceded
    by a raising of the board flag. *)
Theorem coordinator_template_follows_board (any_alive : list bool) (i : nat) :
  ~ In StopSet (fst (coordinator any_alive i))
  /\ forall before after,
       fst (coordinator any_alive i) = before ++ TemplateOutdatedSet :: after ->
       exists before', before = before' ++ [BoardOutdatedSet].
Proof.
  revert i. induction any_alive as [|alive rest IH]; intros i.
  { simpl. split; [tauto|]. intros [|e before] after H; discriminate. }
  cbn [coordinator]. destruct alive.
  - destruct (S i =? 100)%nat.
    + destruct (IH 0%nat) as [Hstop Hpre]. cbn [fst]. split.
      * intros [H|[H|H]]; [discriminate | discriminate | exact (Hstop H)].
      * intros before after H.
        destruct before as [|e1 [|e2 before]]; simpl in H; try discriminate.
        -- exists []. inversion H. reflexivity.
        -- inversion H as [[He1 He2 Hrest]]. subst e1 e2.
           destruct (Hpre before after Hrest) as [b' ->].
           exists (BoardOutdatedSet :: TemplateOutdatedSet :: b'). reflexivity.
    + destruct (IH (S i)) as [Hstop Hpre]. cbn [fst]. split.
      * intros [H|H]; [discriminate | exact (Hstop H)].
      * intros before after H.
        destruct before as [|e1 before]; simpl in H; [discriminate|].
        inversion H as [[He1 Hrest]]. subst e1.
        destruct (Hpre before after Hrest) as [b' ->].
        exists (BoardOutdatedSet :: b'). reflexivity.
  - cbn [fst]. split.
    + intros [H|[H|[]]]; discriminate.
    + intros before after H.
      destruct before as [|e1 [|e2 [|e3 before]]]; simpl in H; try discriminate.
      exists []. inversion H. reflexivity.
Qed.

(** X22.  At the first second at which no worker is alive the main loop
    raises both flags once more and ends; what is observed later plays
    no role. *)
Theorem coordinator_ends_when_all_died (n i : nat) (later : list bool) :
  snd (coordinator (repeat true n ++ false :: later) i) = true
  /\ coordinator (repeat true n ++ false :: later) i
     = coordinator (repeat true n ++ [false]) i
  /\ exists before,
       fst (coordinator (repeat true n ++ false :: later) i)
       = before ++ [BoardOutdatedSet; TemplateOutdatedSet].
Proof.
  revert i. induction n as [|n IH]; intros i.
  { simpl. split; [reflexivity|]. split; [reflexivity|]. now exists []. }
  cbn [repeat app coordinator].
  destruct (S i =? 100)%nat.
  - destruct (IH 0%nat) as (H1 & H2 & before & H3).
    rewrite H2 in *. cbn [fst snd]. split; [exact H1|]. split; [reflexivity|].
    exists (BoardOutdatedSet :: TemplateOutdatedSet :: before). now rewrite H3.
  - destruct (IH (S i)) as (H1 & H2 & before & H3).
    rewrite H2 in *. cbn [fst snd]. split; [exact H1|]. split; [reflexivity|].
    exists (BoardOutdatedSet :: before). now rewrite H3.
Qed.

(** ** The recorded size of the template *)

Lemma size_matches_same (st st' : PlaceClient) :
  same_template st st' -> size_matches st -> size_matches st'.
Proof. unfold same_template, size_matches. intros [-> ->]. auto. Qed.

Lemma apply_events_same_template (es : list Event) (st : PlaceClient) :
  same_template st (apply_events es st).
Proof.
  unfold apply_events. revert st. induction es as [|e es IH]; intros st; simpl.
  - split; reflexivity.
  - destruct (IH (apply_event st e)) as [H1 H2]. split.
    + rewrite H1. now destruct e.
    + rewrite H2. now destruct e.
Qed.

Lemma login_same_template (x : LoginExchange) (username password index : string)
    (now : Q) (st : PlaceClient) :
  same_template st (fst (login x username password index now st)).
Proof.
  unfold login, mbind, py_bind, lift, modify, raise, same_template.
  destruct (login_status x) as [status|]; [|split; reflexivity].
  destruct (negb (status =? 200)); [split; reflexivity|].
  destruct (session x) as [rd|e]; [|split; reflexivity].
  destruct (contains "error" rd) as [[]|e]; [split; reflexivity | | split; reflexivity].
  destruct (getitem rd "accessToken") as [tok|e]; [|split; reflexivity].
  destruct (getitem rd "expiresIn") as [ex|e]; simpl; [|split; reflexivity].
  destruct (add_number now ex) as [t|e]; simpl; split; reflexivity.
Qed.

Lemma refresh_token_same_template (x : LoginExchange) (username password : string)
    (now : Q) (st : PlaceClient) :
  same_template st (fst (refresh_token x username password now st)).
Proof.
  unfold refresh_token, mbind, py_bind, gets.
  destruct (needs_login username now st); [apply login_same_template|].
  split; reflexivity.
Qed.

Lemma compute_wrong_pixels_same_template (username : string) (st : PlaceClient) :
  same_template st (fst (compute_wrong_pixels username st)).
Proof.
  unfold compute_wrong_pixels, mbind, py_bind, gets, lift, modify, same_template. simpl.
  destruct (0 <? length (wrong_pixels st))%nat; [split; reflexivity|].
  cbn beta iota. simpl.
  destruct (wrong_mask _ _ _) as [m|e]; [|split; reflexivity].
  destruct (np_take_all _ _) as [colors|e]; split; reflexivity.
Qed.

Lemma pop_wrong_pixel_same_template (st : PlaceClient) :
  same_template st (fst (pop_wrong_pixel st)).
Proof.
  unfold pop_wrong_pixel, mbind, py_bind, gets, modify, raise, same_template. simpl.
  destruct (last (wrong_pixels st)); split; reflexivity.
Qed.

Lemma get_wrong_pixel_round_size_matches (p : Poll) (username : string)
    (st : PlaceClient) :
  size_matches st -> size_matches (fst (get_wrong_pixel_round p username st)).
Proof.
  intros Hs.
  assert (H0 : size_matches (apply_events (during_wait p) st))
    by (eapply size_matches_same; [apply apply_events_same_template | exact Hs]).
  unfold get_wrong_pixel_round.
  cbv beta iota delta [mbind py_bind gets modify mret py_ret].
  destruct (stop_event (apply_events (during_wait p) st)); [exact H0|].
  pose proof (update_size_matches (collab p) username _ H0) as H1.
  destruct (update (collab p) username (apply_events (during_wait p) st))
    as [st1 [[]|e]]; [|exact H1].
  simpl in H1.
  pose proof (size_matches_same _ _ (compute_wrong_pixels_same_template username st1) H1)
    as H2.
  destruct (compute_wrong_pixels username st1) as [st2 [[]|e]]; [|exact H2].
  simpl in H2.
  destruct (0 <? length (wrong_pixels st2))%nat; [|exact H2].
  pose proof (size_matches_same _ _ (pop_wrong_pixel_same_template st2) H2) as H3.
  destruct (pop_wrong_pixel st2) as [st3 [x|e]]; [|exact H3].
  simpl in H3.
  unfold getattr_canvas. destruct (String.eqb "convas" "canvas"); exact H3.
Qed.

Lemma thread_step_size_matches (inp : Inputs) (username password : string)
    (t : Thread) (st : PlaceClient) :
  size_matches st -> size_matches (fst (thread_step inp username password t st)).
Proof.
  intros Hs. destruct t; simpl; try exact Hs.
  - assert (H0 : size_matches (apply_events (in_events inp) st))
      by (eapply size_matches_same; [apply apply_events_same_template | exact Hs]).
    destruct (stop_event (apply_events (in_events inp) st)); [exact H0|].
    pose proof (size_matches_same _ _
                  (refresh_token_same_template (in_login inp) username password
                     (in_now inp) (apply_events (in_events inp) st)) H0) as H1.
    destruct (refresh_token _ _ _ _ _) as [st2 [u|e]]; exact H1.
  - pose proof (get_wrong_pixel_round_size_matches
                  (mkPoll (in_events inp) (in_collab inp)) username st Hs) as H1.
    destruct (get_wrong_pixel_round _ username st) as [st1 [[]|e]]; exact H1.
  - destruct (snd (place_and_pace _ _ _ _ _ _)) as [[]|e]; exact Hs.
Qed.

(** X23.  The recorded size always fits the template held: it does so
    after [__init__], and every step of every worker thread keeps it so,
    whatever the collaborators deliver. *)
Theorem size_matches_always (rate_limit : Q) (palette : list RGB) (env : Collab)
    (st : PlaceClient) (workers : gmap string string) (steps : list (Inputs * string)) :
  init rate_limit palette env = Val st ->
  size_matches (client (system_run steps (start st workers))).
Proof.
  intros Hinit.
  assert (H0 : size_matches (client (start st workers))).
  { apply init_size_matches in Hinit. exact Hinit. }
  unfold system_run.
  generalize dependent (start st workers). clear Hinit.
  induction steps as [|[inp u] steps IH]; intros sys H0; simpl; [exact H0|].
  apply IH. unfold system_step.
  destruct (threads sys !! u) as [[pw t]|]; [|exact H0].
  simpl. now apply thread_step_size_matches.
Qed.

Lemma size_matches_always_witness :
  size_matches
    (client (system_run
               [(mkInputs [] 1000 Scene.login_ok Scene.collab_2x2 Scene.no_net, "alice");
                (mkInputs [BoardOutdatedSet; TemplateOutdatedSet] 1010 Scene.login_ok
                          Scene.collab_3x1 Scene.no_net, "alice")]
               (start Scene.fresh Scene.workers))).
Proof.
  apply (size_matches_always 0 Scene.palette Scene.collab_2x2 Scene.fresh Scene.workers).
  reflexivity.
Defined.

(** ** A refresh of the board *)

(** X24.  A call of [update] that gets to the board branch and returns
    leaves a board of the template's shape and an empty queue, also when
    the template was replaced in the same call. *)
Theorem board_refresh_aligns_and_empties (env : Collab) (username : string)
    (st : PlaceClient) :
  size_matches st ->
  (board_outdated st || is_None (board st))%bool = true ->
  (template_outdated st = true -> load_template_data env <> None) ->
  snd (update env username st) = Val tt ->
  aligned (fst (update env username st))
  /\ wrong_pixels (fst (update env username st)) = [].
Proof. apply update_with_board_refresh_aligns. Qed.

Lemma board_refresh_aligns_and_empties_witness :
  aligned (fst (update Scene.collab_3x1 "alice"
                  (apply_events [BoardOutdatedSet; TemplateOutdatedSet] Scene.loaded)))
  /\ wrong_pixels
       (fst (update Scene.collab_3x1 "alice"
               (apply_events [BoardOutdatedSet; TemplateOutdatedSet] Scene.loaded)))
     = [].
Proof.
  apply (board_refresh_aligns_and_empties Scene.collab_3x1 "alice"
           (apply_events [BoardOutdatedSet; TemplateOutdatedSet] Scene.loaded));
    [reflexivity | reflexivity | intros _; discriminate | reflexivity].
Defined.

(** ** No placement *)

Lemma system_step_no_thread_at_place (inp : Inputs) (username : string) (sys : System) :
  (forall u pw t, threads sys !! u = Some (pw, t) -> at_place t = false) ->
  forall u pw t, threads (system_step inp username sys) !! u = Some (pw, t) ->
                 at_place t = false.
Proof.
  intros Hall u pw t. unfold system_step.
  destruct (threads sys !! username) as [[pw0 t0]|] eqn:E; [|apply Hall].
  simpl. destruct (decide (username = u)) as [->|Hne].
  - rewrite lookup_insert_eq. intros H. inversion H; subst.
    apply thread_step_not_at_place. exact (Hall _ _ _ E).
  - rewrite lookup_insert_ne by exact Hne. apply Hall.
Qed.

(** X25.  In no run of the system does a worker thread get to the
    placement (line 231): after any number of steps of any workers, from
    the threads as [start] creates them, no thread stands there. *)
Theorem no_worker_ever_places (st : PlaceClient) (workers : gmap string string)
    (steps : list (Inputs * string)) (username password : string) (t : Thread) :
  threads (system_run steps (start st workers)) !! username = Some (password, t) ->
  at_place t = false.
Proof.
  assert (H0 : forall u pw t', threads (start st workers) !! u = Some (pw, t') ->
                               at_place t' = false).
  { intros u pw t'. unfold start. simpl. rewrite lookup_fmap.
    destruct (workers !! u); simpl; [|discriminate].
    intros H. inversion H. reflexivity. }
  unfold system_run. revert username password t.
  generalize dependent (start st workers).
  induction steps as [|[inp u] steps IH]; intros sys H0; simpl; [exact H0|].
  apply IH. now apply system_step_no_thread_at_place.
Qed.

Lemma no_worker_ever_places_witness :
  at_place (Raised AttributeError) = false.
Proof.
  apply (no_worker_ever_places Scene.fresh Scene.workers
           [(mkInputs [] 1000 Scene.login_ok Scene.collab_2x2 Scene.no_net, "alice");
            (mkInputs [BoardOutdatedSet] 1010 Scene.login_ok Scene.collab_2x2
                      Scene.no_net, "alice")]
           "alice" "pw-a" (Raised AttributeError)).
  reflexivity.
Defined.
